(** * FireTools calculation engine: hydraulics.ts and detection.ts

    A shallow embedding of the three pure calculators of the repository
    (Hazen-Williams friction loss, sprinkler discharge, detector spacing
    per UNE 23007) and the properties their specification states.

    Numbers.  A JavaScript [number] is modelled as a mathematical real:
    every arithmetic expression of the source is read in exact arithmetic,
    without the rounding error of the binary64 operations.  [NaN] and the
    infinities have no counterpart, so the theorems carry the
    preconditions that exclude them: a non-negative base under a
    fractional power, a non-negative argument of the square root, a
    non-zero divisor.

    The detector planner is also given on IEEE 754 doubles, in module
    [Binary64]: that model runs, and it is the one consulted where the
    answer depends on a rounding or on [NaN]. *)

From Stdlib Require Import Floats.
From Stdlib Require Import Reals Lra Lia ZArith List String.
From Bignums Require Import BigZ.
Import ListNotations.

Open Scope R_scope.

(** ** The [Math] object *)

(** [Math.round]: the nearest integer, a tie going toward plus infinity. *)
Definition Math_round (x : R) : R := IZR (Zfloor (x + 1 / 2)).

(** [Math.ceil]: the least integer not below [x]. *)
Definition Math_ceil (x : R) : R := IZR (Zceil x).

(** [Math.sqrt], on non-negative arguments. *)
Definition Math_sqrt (x : R) : R := sqrt x.

(** [Math.pow] with a positive exponent, on a non-negative base:
    [exp (y * ln x)] for a positive base, and [0] for base [0]. *)
Definition Math_pow (x y : R) : R :=
  if Rlt_dec 0 x then Rpower x y else 0.

(** [Math.PI]. *)
Definition Math_PI : R := PI.

(** ** hydraulics.ts *)

Record ResultadoPerdidaCarga : Type := {
  perdidaBar : R;
  velocidadMs : R;
  perdidaPorMetro : R
}.

Definition calcularPerdidaCarga
    (caudalLpm diametroMm longitudM coeficienteC : R) : ResultadoPerdidaCarga :=
  let caudalM3s := caudalLpm / 60000 in
  let diametroM := diametroMm / 1000 in
  let area := Math_PI * Math_pow (diametroM / 2) 2 in
  let velocidadMs := caudalM3s / area in
  let perdidaPorMetro :=
    10.67 * Math_pow caudalM3s 1.852 /
      (Math_pow coeficienteC 1.852 * Math_pow diametroM 4.87) in
  let perdidaTotalM := perdidaPorMetro * longitudM in
  let perdidaBar := perdidaTotalM / 10.197 in
  {| perdidaBar := Math_round (perdidaBar * 1000) / 1000;
     velocidadMs := Math_round (velocidadMs * 100) / 100;
     perdidaPorMetro := Math_round (perdidaPorMetro * 10000) / 10000 |}.

Record ResultadoCaudal : Type := { caudalLpm : R }.

Definition calcularCaudalRociador (factorK presionBar : R) : ResultadoCaudal :=
  let caudalLpm := factorK * Math_sqrt (presionBar * 10) in
  {| caudalLpm := Math_round (caudalLpm * 10) / 10 |}.

(** ** detection.ts *)

Record TipoDetector : Type := {
  nombre : string;
  coberturaMaxM2 : list R;
  alturaMaxM : R
}.

Definition tiposDetectores : list TipoDetector :=
  [ {| nombre := "Detector optico de humos (puntual)";
       coberturaMaxM2 := [80; 80; 60; 40];
       alturaMaxM := 12 |};
    {| nombre := "Detector ionico de humos";
       coberturaMaxM2 := [80; 80; 60; 40];
       alturaMaxM := 12 |};
    {| nombre := "Detector termico (clase A1)";
       coberturaMaxM2 := [30; 20; 0; 0];
       alturaMaxM := 7.5 |};
    {| nombre := "Detector termico (clase A2)";
       coberturaMaxM2 := [20; 15; 0; 0];
       alturaMaxM := 6 |};
    {| nombre := "Detector termovelocimetrico";
       coberturaMaxM2 := [30; 20; 0; 0];
       alturaMaxM := 7.5 |};
    {| nombre := "Detector de llama (IR/UV)";
       coberturaMaxM2 := [200; 200; 200; 200];
       alturaMaxM := 20 |} ].

Definition obtenerRangoAltura (alturaM : R) : nat :=
  if Rle_dec alturaM 6 then 0%nat
  else if Rle_dec alturaM 8 then 1%nat
  else if Rle_dec alturaM 10 then 2%nat
  else 3%nat.

(** A template literal: the literal text, the interpolated numbers, and
    the numbers printed with [toFixed(2)].  How a number prints is left
    to the host; the structure of the text is what the code decides. *)
Inductive Fragmento : Type :=
  | Texto (s : string)
  | Numero (x : R)
  | Fijo2 (x : R).

Definition Cadena : Type := list Fragmento.

Record ResultadoDetectores : Type := {
  areaM2 : R;
  numDetectoresMinimo : R;
  coberturaMaximaM2 : R;
  espaciamientoMaximoM : R;
  numDetectoresReal : R;
  detectoresLargo : R;
  detectoresAncho : R;
  espaciamientoLargoM : R;
  espaciamientoAnchoM : R;
  distanciaParedLargoM : R;
  distanciaParedAnchoM : R;
  valido : bool;
  mensaje : Cadena;
  advertencias : list Cadena
}.

Definition mensajeAlturaMaxima (detector : TipoDetector) : Cadena :=
  [Texto "La altura maxima para este detector es ";
   Numero (alturaMaxM detector); Texto "m"].

Definition mensajeNoAdecuado : Cadena :=
  [Texto "Este tipo de detector no es adecuado para esta altura"].

Definition advertenciaLargo (espaciamientoLargoM espaciamientoMaximoM : R) : Cadena :=
  [Texto "Espaciamiento en largo ("; Fijo2 espaciamientoLargoM;
   Texto "m) supera el maximo ("; Fijo2 espaciamientoMaximoM; Texto "m)"].

Definition advertenciaAncho (espaciamientoAnchoM espaciamientoMaximoM : R) : Cadena :=
  [Texto "Espaciamiento en ancho ("; Fijo2 espaciamientoAnchoM;
   Texto "m) supera el maximo ("; Fijo2 espaciamientoMaximoM; Texto "m)"].

(** The body of [calcularEspaciamientoDetectores] once the detector record
    has been fetched.  [None] stands for a band index outside the coverage
    array, where the source goes on with [undefined] and every field
    becomes [NaN]. *)
Definition calcularParaDetector
    (detector : TipoDetector) (alturaM largoM anchoM : R)
    : option ResultadoDetectores :=
  let areaM2 := largoM * anchoM in
  let advertencias : list Cadena := [] in
  if Rgt_dec alturaM (alturaMaxM detector) then
    Some {| areaM2 := areaM2;
            numDetectoresMinimo := 0;
            coberturaMaximaM2 := 0;
            espaciamientoMaximoM := 0;
            numDetectoresReal := 0;
            detectoresLargo := 0;
            detectoresAncho := 0;
            espaciamientoLargoM := 0;
            espaciamientoAnchoM := 0;
            distanciaParedLargoM := 0;
            distanciaParedAnchoM := 0;
            valido := false;
            mensaje := mensajeAlturaMaxima detector;
            advertencias := [] |}
  else
    let rangoAltura := obtenerRangoAltura alturaM in
    match nth_error (coberturaMaxM2 detector) rangoAltura with
    | None => None
    | Some coberturaMaximaM2 =>
      if Req_dec_T coberturaMaximaM2 0 then
        Some {| areaM2 := areaM2;
                numDetectoresMinimo := 0;
                coberturaMaximaM2 := 0;
                espaciamientoMaximoM := 0;
                numDetectoresReal := 0;
                detectoresLargo := 0;
                detectoresAncho := 0;
                espaciamientoLargoM := 0;
                espaciamientoAnchoM := 0;
                distanciaParedLargoM := 0;
                distanciaParedAnchoM := 0;
                valido := false;
                mensaje := mensajeNoAdecuado;
                advertencias := [] |}
      else
        let espaciamientoMaximoM := Math_sqrt coberturaMaximaM2 in
        let numDetectoresMinimo := Math_ceil (areaM2 / coberturaMaximaM2) in
        let detectoresLargo := Math_ceil (largoM / espaciamientoMaximoM) in
        let detectoresAncho := Math_ceil (anchoM / espaciamientoMaximoM) in
        let numDetectoresReal := detectoresLargo * detectoresAncho in
        let espaciamientoLargoM := largoM / detectoresLargo in
        let espaciamientoAnchoM := anchoM / detectoresAncho in
        let distanciaParedLargoM := espaciamientoLargoM / 2 in
        let distanciaParedAnchoM := espaciamientoAnchoM / 2 in
        let advertencias :=
          if Rgt_dec espaciamientoLargoM (espaciamientoMaximoM * 1.05)
          then advertencias ++
                 [advertenciaLargo espaciamientoLargoM espaciamientoMaximoM]
          else advertencias in
        let advertencias :=
          if Rgt_dec espaciamientoAnchoM (espaciamientoMaximoM * 1.05)
          then advertencias ++
                 [advertenciaAncho espaciamientoAnchoM espaciamientoMaximoM]
          else advertencias in
        Some {| areaM2 := Math_round (areaM2 * 100) / 100;
                numDetectoresMinimo := numDetectoresMinimo;
                coberturaMaximaM2 := coberturaMaximaM2;
                espaciamientoMaximoM := Math_round (espaciamientoMaximoM * 100) / 100;
                numDetectoresReal := numDetectoresReal;
                detectoresLargo := detectoresLargo;
                detectoresAncho := detectoresAncho;
                espaciamientoLargoM := Math_round (espaciamientoLargoM * 100) / 100;
                espaciamientoAnchoM := Math_round (espaciamientoAnchoM * 100) / 100;
                distanciaParedLargoM := Math_round (distanciaParedLargoM * 100) / 100;
                distanciaParedAnchoM := Math_round (distanciaParedAnchoM * 100) / 100;
                valido := true;
                mensaje := [];
                advertencias := advertencias |}
    end.

(** [calcularEspaciamientoDetectores]: [None] also stands for the
    [TypeError] the source raises when [tiposDetectores[tipoDetectorIndex]]
    is [undefined]. *)
Definition calcularEspaciamientoDetectores
    (tipoDetectorIndex : nat) (alturaM largoM anchoM : R)
    : option ResultadoDetectores :=
  match nth_error tiposDetectores tipoDetectorIndex with
  | None => None
  | Some detector => calcularParaDetector detector alturaM largoM anchoM
  end.

(** ** Vocabulary of the statements *)

(** The record of a rejection as the source writes it twice: the area as
    computed, every other number zero, no warnings. *)
Definition rechazo (areaM2 : R) (mensaje : Cadena) : ResultadoDetectores :=
  {| areaM2 := areaM2;
     numDetectoresMinimo := 0;
     coberturaMaximaM2 := 0;
     espaciamientoMaximoM := 0;
     numDetectoresReal := 0;
     detectoresLargo := 0;
     detectoresAncho := 0;
     espaciamientoLargoM := 0;
     espaciamientoAnchoM := 0;
     distanciaParedLargoM := 0;
     distanciaParedAnchoM := 0;
     valido := false;
     mensaje := mensaje;
     advertencias := [] |}.

(** Every numeric field of a result is zero, the area included. *)
Definition todo_a_cero (r : ResultadoDetectores) : Prop :=
  areaM2 r = 0 /\ numDetectoresMinimo r = 0 /\ coberturaMaximaM2 r = 0 /\
  espaciamientoMaximoM r = 0 /\ numDetectoresReal r = 0 /\
  detectoresLargo r = 0 /\ detectoresAncho r = 0 /\
  espaciamientoLargoM r = 0 /\ espaciamientoAnchoM r = 0 /\
  distanciaParedLargoM r = 0 /\ distanciaParedAnchoM r = 0.

(** The warnings of the accepted exit, in the order the source pushes
    them, from the unrounded spacings and the unrounded maximum. *)
Definition avisos (sL sW sMax : R) : list Cadena :=
  (if Rgt_dec sL (sMax * 1.05) then [advertenciaLargo sL sMax] else []) ++
  (if Rgt_dec sW (sMax * 1.05) then [advertenciaAncho sW sMax] else []).

(** The specification's formulas, in its own words (section 4.1):
    head loss per meter, pressure drop in bar, flow velocity. *)
Definition spec_J (Q C D : R) : R :=
  10.67 * Rpower Q 1.852 / (Rpower C 1.852 * Rpower D 4.87).

Definition spec_perdidaBar (Q C D L : R) : R := spec_J Q C D * L / 10.197.

Definition spec_velocidad (Q D : R) : R := Q / (PI * (D / 2) ^ 2).

(** The specification's discharge formula (section 4.2). *)
Definition spec_caudal (K P : R) : R := K * sqrt (P * 10).

(** [salida] is [exacto] rounded once to [decimales] decimals: an integer
    number of units of the last place, the nearest one to [exacto], a tie
    going up. *)
Definition redondeado (decimales : nat) (exacto salida : R) : Prop :=
  exists k : Z,
    salida = IZR k / 10 ^ decimales /\
    IZR k - 1 / 2 <= exacto * 10 ^ decimales < IZR k + 1 / 2.

(** Two figures agree up to [tolerancia]. *)
Definition aprox (tolerancia x y : R) : Prop := Rabs (x - y) <= tolerancia.

(** The head loss per meter of scenario 1, with the unit conversions
    [500 / 60000 = 1 / 120] and [50 / 1000 = 1 / 20] carried out. *)
Definition J_escenario1 : R :=
  10.67 * Rpower (/ 120) 1.852 / (Rpower 120 1.852 * Rpower (/ 20) 4.87).

(** The thermal class A1 detector of the table, and a class that is not
    permitted in the 6-8 m band although its rated height reaches it. *)
Definition detectorA1 : TipoDetector :=
  {| nombre := "Detector termico (clase A1)";
     coberturaMaxM2 := [30; 20; 0; 0];
     alturaMaxM := 7.5 |}.

Definition detectorSinBanda1 : TipoDetector :=
  {| nombre := "Detector sin cobertura entre 6 y 8 m";
     coberturaMaxM2 := [30; 0; 0; 0];
     alturaMaxM := 7.5 |}.

(** ** The reference tables of hydraulics.ts and the figures its pages derive *)

Record CoeficienteC : Type := { material : string; valor : R }.

Definition coeficientesC : list CoeficienteC :=
  [ {| material := "Acero negro nuevo"; valor := 120 |};
    {| material := "Acero galvanizado"; valor := 120 |};
    {| material := "Acero negro (15-20 anos)"; valor := 100 |};
    {| material := "Hierro fundido nuevo"; valor := 130 |};
    {| material := "Hierro fundido (20 anos)"; valor := 100 |};
    {| material := "Cobre"; valor := 140 |};
    {| material := "Plastico (PVC, CPVC, PE)"; valor := 150 |};
    {| material := "Acero inoxidable"; valor := 140 |} ].

Record FactorK : Type := { tipo : string; k : R }.

(** The inch mark of the two standard sprinkler labels. *)
Definition pulgadas : string :=
  String (Ascii.Ascii false true false false false true false false) EmptyString.

Definition factoresK : list FactorK :=
  [ {| tipo := ("Rociador estandar (1/2" ++ pulgadas ++ ")")%string; k := 80 |};
    {| tipo := ("Rociador estandar (3/4" ++ pulgadas ++ ")")%string; k := 115 |};
    {| tipo := "Rociador de cobertura extendida"; k := 160 |};
    {| tipo := "Rociador ESFR K14"; k := 200 |};
    {| tipo := "Rociador ESFR K17"; k := 240 |};
    {| tipo := "Rociador ESFR K25"; k := 360 |} ].

(** The number that [x.toFixed(2)] prints: the whole number of
    hundredths nearest to [x], the larger in magnitude on a tie, with the
    sign of [x]. *)
Definition toFixed_2 (x : R) : R :=
  if Rlt_dec x 0 then - (IZR (Zfloor (- x * 100 + 1 / 2)) / 100)
  else IZR (Zfloor (x * 100 + 1 / 2)) / 100.

(** PerdidaCarga.tsx: the pressure drop shown in meters of water column,
    [(resultado.perdidaBar * 10.197).toFixed(2)], and the condition under
    which the page shows its velocity warning,
    [resultado.velocidadMs > 6]. *)
Definition perdidaMca (resultado : ResultadoPerdidaCarga) : R :=
  toFixed_2 (perdidaBar resultado * 10.197).

Definition avisoVelocidad (resultado : ResultadoPerdidaCarga) : bool :=
  if Rgt_dec (velocidadMs resultado) 6 then true else false.

Set Warnings "-inexact-float".

(** ** detection.ts in binary64

    The same planner on IEEE 754 doubles, the arithmetic the program runs
    in: primitive floats for the operations, [NaN] and the infinities
    included.  It is the model that runs: results at a given double are
    obtained by evaluation. *)

Module Binary64.

Local Open Scope float_scope.

(** [2^52]: from there on every double is an integer. *)
Definition dos52 : float := 4503599627370496.

(** The integer nearest to [x] (a tie going to the even one), for
    [|x| < 2^52]: adding and removing [2^52] rounds off the fraction. *)
Definition entero_cercano (x : float) : float :=
  if x <? 0 then (x - dos52) + dos52 else (x + dos52) - dos52.

(** [Math.floor], [Math.ceil] and [Math.round] on doubles: zeros,
    [NaN], infinities and doubles from [2^52] on are returned as they
    are; a zero result of a negative argument is [-0]; [Math.round]
    sends a tie toward plus infinity. *)
Definition Math_floor (x : float) : float :=
  if PrimFloat.abs x <? dos52 then
    if x =? 0 then x
    else let r := entero_cercano x in
         if x <? r then r - 1 else r
  else x.

Definition Math_ceil (x : float) : float :=
  if PrimFloat.abs x <? dos52 then
    if x =? 0 then x
    else let r := entero_cercano x in
         let c := if r <? x then r + 1 else r in
         if andb (c =? 0) (x <? 0) then PrimFloat.neg_zero else c
  else x.

Definition Math_round (x : float) : float :=
  if PrimFloat.abs x <? dos52 then
    let f := Math_floor x in
    let e := if 0.5 <=? x - f then f + 1 else f in
    if andb (e =? 0) (x <? 0) then PrimFloat.neg_zero else e
  else x.

Definition Math_sqrt (x : float) : float := PrimFloat.sqrt x.

Record TipoDetector : Type := {
  nombre : string;
  coberturaMaxM2 : list float;
  alturaMaxM : float
}.

Definition tiposDetectores : list TipoDetector :=
  [ {| nombre := "Detector optico de humos (puntual)";
       coberturaMaxM2 := [80; 80; 60; 40];
       alturaMaxM := 12 |};
    {| nombre := "Detector ionico de humos";
       coberturaMaxM2 := [80; 80; 60; 40];
       alturaMaxM := 12 |};
    {| nombre := "Detector termico (clase A1)";
       coberturaMaxM2 := [30; 20; 0; 0];
       alturaMaxM := 7.5 |};
    {| nombre := "Detector termico (clase A2)";
       coberturaMaxM2 := [20; 15; 0; 0];
       alturaMaxM := 6 |};
    {| nombre := "Detector termovelocimetrico";
       coberturaMaxM2 := [30; 20; 0; 0];
       alturaMaxM := 7.5 |};
    {| nombre := "Detector de llama (IR/UV)";
       coberturaMaxM2 := [200; 200; 200; 200];
       alturaMaxM := 20 |} ].

Definition obtenerRangoAltura (alturaM : float) : nat :=
  if alturaM <=? 6 then 0%nat
  else if alturaM <=? 8 then 1%nat
  else if alturaM <=? 10 then 2%nat
  else 3%nat.

Inductive Fragmento : Type :=
  | Texto (s : string)
  | Numero (x : float)
  | Fijo2 (x : float).

Definition Cadena : Type := list Fragmento.

Record ResultadoDetectores : Type := {
  areaM2 : float;
  numDetectoresMinimo : float;
  coberturaMaximaM2 : float;
  espaciamientoMaximoM : float;
  numDetectoresReal : float;
  detectoresLargo : float;
  detectoresAncho : float;
  espaciamientoLargoM : float;
  espaciamientoAnchoM : float;
  distanciaParedLargoM : float;
  distanciaParedAnchoM : float;
  valido : bool;
  mensaje : Cadena;
  advertencias : list Cadena
}.

(** [None] stands for a band index outside the coverage array, where
    the source goes on with [undefined]. *)
Definition calcularParaDetector
    (detector : TipoDetector) (alturaM largoM anchoM : float)
    : option ResultadoDetectores :=
  let areaM2 := largoM * anchoM in
  let advertencias : list Cadena := [] in
  if alturaMaxM detector <? alturaM then
    Some {| areaM2 := areaM2;
            numDetectoresMinimo := 0;
            coberturaMaximaM2 := 0;
            espaciamientoMaximoM := 0;
            numDetectoresReal := 0;
            detectoresLargo := 0;
            detectoresAncho := 0;
            espaciamientoLargoM := 0;
            espaciamientoAnchoM := 0;
            distanciaParedLargoM := 0;
            distanciaParedAnchoM := 0;
            valido := false;
            mensaje := [Texto "La altura maxima para este detector es ";
                        Numero (alturaMaxM detector); Texto "m"];
            advertencias := [] |}
  else
    let rangoAltura := obtenerRangoAltura alturaM in
    match nth_error (coberturaMaxM2 detector) rangoAltura with
    | None => None
    | Some coberturaMaximaM2 =>
      if coberturaMaximaM2 =? 0 then
        Some {| areaM2 := areaM2;
                numDetectoresMinimo := 0;
                coberturaMaximaM2 := 0;
                espaciamientoMaximoM := 0;
                numDetectoresReal := 0;
                detectoresLargo := 0;
                detectoresAncho := 0;
                espaciamientoLargoM := 0;
                espaciamientoAnchoM := 0;
                distanciaParedLargoM := 0;
                distanciaParedAnchoM := 0;
                valido := false;
                mensaje :=
                  [Texto "Este tipo de detector no es adecuado para esta altura"];
                advertencias := [] |}
      else
        let espaciamientoMaximoM := Math_sqrt coberturaMaximaM2 in
        let numDetectoresMinimo := Math_ceil (areaM2 / coberturaMaximaM2) in
        let detectoresLargo := Math_ceil (largoM / espaciamientoMaximoM) in
        let detectoresAncho := Math_ceil (anchoM / espaciamientoMaximoM) in
        let numDetectoresReal := detectoresLargo * detectoresAncho in
        let espaciamientoLargoM := largoM / detectoresLargo in
        let espaciamientoAnchoM := anchoM / detectoresAncho in
        let distanciaParedLargoM := espaciamientoLargoM / 2 in
        let distanciaParedAnchoM := espaciamientoAnchoM / 2 in
        let advertencias :=
          if espaciamientoMaximoM * 1.05 <? espaciamientoLargoM
          then advertencias ++
                 [[Texto "Espaciamiento en largo ("; Fijo2 espaciamientoLargoM;
                   Texto "m) supera el maximo ("; Fijo2 espaciamientoMaximoM;
                   Texto "m)"]]
          else advertencias in
        let advertencias :=
          if espaciamientoMaximoM * 1.05 <? espaciamientoAnchoM
          then advertencias ++
                 [[Texto "Espaciamiento en ancho ("; Fijo2 espaciamientoAnchoM;
                   Texto "m) supera el maximo ("; Fijo2 espaciamientoMaximoM;
                   Texto "m)"]]
          else advertencias in
        Some {| areaM2 := Math_round (areaM2 * 100) / 100;
                numDetectoresMinimo := numDetectoresMinimo;
                coberturaMaximaM2 := coberturaMaximaM2;
                espaciamientoMaximoM :=
                  Math_round (espaciamientoMaximoM * 100) / 100;
                numDetectoresReal := numDetectoresReal;
                detectoresLargo := detectoresLargo;
                detectoresAncho := detectoresAncho;
                espaciamientoLargoM :=
                  Math_round (espaciamientoLargoM * 100) / 100;
                espaciamientoAnchoM :=
                  Math_round (espaciamientoAnchoM * 100) / 100;
                distanciaParedLargoM :=
                  Math_round (distanciaParedLargoM * 100) / 100;
                distanciaParedAnchoM :=
                  Math_round (distanciaParedAnchoM * 100) / 100;
                valido := true;
                mensaje := [];
                advertencias := advertencias |}
    end.

(** [None] also stands for the [TypeError] of an index outside the
    table. *)
Definition calcularEspaciamientoDetectores
    (tipoDetectorIndex : nat) (alturaM largoM anchoM : float)
    : option ResultadoDetectores :=
  match nth_error tiposDetectores tipoDetectorIndex with
  | None => None
  | Some detector => calcularParaDetector detector alturaM largoM anchoM
  end.

(** The double [Math.sqrt(80)], 8.94427190999916. *)
Definition raiz80 : float := 0x1.1e3779b97f4a8p+3.

End Binary64.

Set Warnings "inexact-float".

(** * Lemmas *)

(** ** Rounding and ceiling *)

Lemma Math_round_bound (x : R) :
  Math_round x - 1 / 2 <= x < Math_round x + 1 / 2.
Proof.
  unfold Math_round.
  pose proof (Zfloor_bound (x + 1 / 2)) as H. lra.
Qed.

Lemma Math_round_eq (k : Z) (x : R) :
  IZR k - 1 / 2 <= x < IZR k + 1 / 2 -> Math_round x = IZR k.
Proof.
  intros H. unfold Math_round. f_equal.
  apply Zfloor_eq. lra.
Qed.

Lemma Math_round_le (x y : R) : x <= y -> Math_round x <= Math_round y.
Proof.
  intros H. unfold Math_round.
  apply IZR_le, Zfloor_le. lra.
Qed.

Lemma Math_round_nonneg (x : R) : 0 <= x -> 0 <= Math_round x.
Proof.
  intros H. unfold Math_round.
  apply IZR_le, Zfloor_lub. simpl. lra.
Qed.

Lemma Math_ceil_bound (x : R) : Math_ceil x - 1 < x <= Math_ceil x.
Proof. unfold Math_ceil. apply Zceil_bound. Qed.

Lemma Math_ceil_eq (k : Z) (x : R) :
  IZR k - 1 < x <= IZR k -> Math_ceil x = IZR k.
Proof.
  intros H. unfold Math_ceil. f_equal. now apply Zceil_eq.
Qed.

(** A positive argument has a ceiling of at least one. *)
Lemma Math_ceil_pos (x : R) : 0 < x -> 1 <= Math_ceil x.
Proof.
  intros H. unfold Math_ceil.
  pose proof (Zceil_bound x) as [_ Hle].
  assert (Hz : (0 < Zceil x)%Z).
  { apply lt_IZR. simpl. lra. }
  apply IZR_le. lia.
Qed.

(** The ceiling is the least integer above: an integer bound on [x]
    bounds the ceiling. *)
Lemma Math_ceil_glb (k : Z) (x : R) : x <= IZR k -> Math_ceil x <= IZR k.
Proof.
  intros H. unfold Math_ceil.
  pose proof (Zceil_bound x) as [Hlt _].
  apply IZR_le.
  assert (Hz : (Zceil x - 1 < k)%Z).
  { apply lt_IZR. rewrite minus_IZR. lra. }
  lia.
Qed.

Lemma Math_pow_pos (x y : R) : 0 < x -> Math_pow x y = Rpower x y.
Proof.
  intros H. unfold Math_pow. destruct (Rlt_dec 0 x); [reflexivity | contradiction].
Qed.

Lemma Math_pow_zero (y : R) : Math_pow 0 y = 0.
Proof.
  unfold Math_pow. destruct (Rlt_dec 0 0); [lra | reflexivity].
Qed.

Lemma Math_pow_nonneg (x y : R) : 0 <= Math_pow x y.
Proof.
  unfold Math_pow. destruct (Rlt_dec 0 x).
  - left. apply exp_pos.
  - lra.
Qed.

Lemma Math_pow_gt0 (x y : R) : 0 < x -> 0 < Math_pow x y.
Proof.
  intros H. rewrite Math_pow_pos by assumption. apply exp_pos.
Qed.

(** [Math.pow(x, 2)] is the square. *)
Lemma Math_pow_2 (x : R) : 0 <= x -> Math_pow x 2 = x * x.
Proof.
  intros [H | <-].
  - rewrite Math_pow_pos by assumption.
    change 2 with (INR 2). rewrite Rpower_pow by assumption. simpl. ring.
  - rewrite Math_pow_zero. ring.
Qed.

(** A positive power is monotone in its base, zero included. *)
Lemma Math_pow_le (x1 x2 y : R) :
  0 < y -> 0 <= x1 <= x2 -> Math_pow x1 y <= Math_pow x2 y.
Proof.
  intros Hy [H1 H12]. unfold Math_pow.
  destruct (Rlt_dec 0 x1) as [Hx1 | Hx1]; destruct (Rlt_dec 0 x2) as [Hx2 | Hx2];
    try lra.
  - apply Rle_Rpower_l; lra.
  - left. apply exp_pos.
Qed.

(** ** Square roots of the coverage table *)

Lemma sqrt_entre (a b x : R) :
  0 <= a -> 0 < b -> a * a <= x -> x < b * b -> a <= sqrt x < b.
Proof.
  intros Ha Hb Hax Hxb. split.
  - rewrite <- (sqrt_square a) by assumption. now apply sqrt_le_1_alt.
  - rewrite <- (sqrt_square b) by lra. apply sqrt_lt_1_alt. nra.
Qed.

Lemma Math_sqrt_gt0 (c : R) : 0 < c -> 0 < Math_sqrt c.
Proof. intros H. unfold Math_sqrt. now apply sqrt_lt_R0. Qed.

Lemma Math_sqrt_sqr (c : R) : 0 <= c -> Math_sqrt c * Math_sqrt c = c.
Proof. intros H. unfold Math_sqrt. now apply sqrt_sqrt. Qed.

(** ** The three exits of the planner *)

Lemma salida_altura (d : TipoDetector) (h l w : R) :
  h > alturaMaxM d ->
  calcularParaDetector d h l w = Some (rechazo (l * w) (mensajeAlturaMaxima d)).
Proof.
  intros H. unfold calcularParaDetector.
  destruct (Rgt_dec h (alturaMaxM d)); [reflexivity | contradiction].
Qed.

Lemma salida_no_adecuado (d : TipoDetector) (h l w : R) :
  h <= alturaMaxM d ->
  nth_error (coberturaMaxM2 d) (obtenerRangoAltura h) = Some 0 ->
  calcularParaDetector d h l w = Some (rechazo (l * w) mensajeNoAdecuado).
Proof.
  intros H Hc. unfold calcularParaDetector.
  destruct (Rgt_dec h (alturaMaxM d)); [lra |].
  rewrite Hc. destruct (Req_dec_T 0 0); [reflexivity | contradiction].
Qed.

Lemma salida_aceptada (d : TipoDetector) (h l w c : R) :
  h <= alturaMaxM d ->
  nth_error (coberturaMaxM2 d) (obtenerRangoAltura h) = Some c ->
  c <> 0 ->
  calcularParaDetector d h l w =
  Some {| areaM2 := Math_round (l * w * 100) / 100;
          numDetectoresMinimo := Math_ceil (l * w / c);
          coberturaMaximaM2 := c;
          espaciamientoMaximoM := Math_round (Math_sqrt c * 100) / 100;
          numDetectoresReal :=
            Math_ceil (l / Math_sqrt c) * Math_ceil (w / Math_sqrt c);
          detectoresLargo := Math_ceil (l / Math_sqrt c);
          detectoresAncho := Math_ceil (w / Math_sqrt c);
          espaciamientoLargoM :=
            Math_round (l / Math_ceil (l / Math_sqrt c) * 100) / 100;
          espaciamientoAnchoM :=
            Math_round (w / Math_ceil (w / Math_sqrt c) * 100) / 100;
          distanciaParedLargoM :=
            Math_round (l / Math_ceil (l / Math_sqrt c) / 2 * 100) / 100;
          distanciaParedAnchoM :=
            Math_round (w / Math_ceil (w / Math_sqrt c) / 2 * 100) / 100;
          valido := true;
          mensaje := [];
          advertencias :=
            avisos (l / Math_ceil (l / Math_sqrt c))
                   (w / Math_ceil (w / Math_sqrt c)) (Math_sqrt c) |}.
Proof.
  intros H Hc Hnz. unfold calcularParaDetector, avisos.
  destruct (Rgt_dec h (alturaMaxM d)); [lra |].
  rewrite Hc. destruct (Req_dec_T c 0); [contradiction |].
  cbv zeta.
  destruct (Rgt_dec (l / Math_ceil (l / Math_sqrt c)) (Math_sqrt c * 1.05));
    destruct (Rgt_dec (w / Math_ceil (w / Math_sqrt c)) (Math_sqrt c * 1.05));
    reflexivity.
Qed.

(** The uniform spacing never exceeds the maximum: [n = ceil (x / s)] is
    at least [x / s], so [x / n <= s]. *)
Lemma espaciamiento_bajo_maximo (x s : R) :
  0 < x -> 0 < s -> x / Math_ceil (x / s) <= s.
Proof.
  intros Hx Hs.
  assert (Hq : 0 < x / s) by (apply Rdiv_lt_0_compat; assumption).
  pose proof (Math_ceil_pos _ Hq) as Hn.
  pose proof (Math_ceil_bound (x / s)) as [_ Hle].
  set (n := Math_ceil (x / s)) in *.
  assert (Hxs : x <= n * s).
  { apply (Rmult_le_compat_r s) in Hle; [| lra].
    unfold Rdiv in Hle. rewrite Rmult_assoc, Rinv_l, Rmult_1_r in Hle by lra.
    exact Hle. }
  apply (Rmult_le_reg_r n); [lra |].
  unfold Rdiv. rewrite Rmult_assoc, Rinv_l, Rmult_1_r by lra. lra.
Qed.

Lemma avisos_vacio (l w c : R) :
  0 < l -> 0 < w -> 0 < c ->
  avisos (l / Math_ceil (l / Math_sqrt c))
         (w / Math_ceil (w / Math_sqrt c)) (Math_sqrt c) = [].
Proof.
  intros Hl Hw Hc.
  pose proof (Math_sqrt_gt0 c Hc) as Hs.
  pose proof (espaciamiento_bajo_maximo l _ Hl Hs) as HL.
  pose proof (espaciamiento_bajo_maximo w _ Hw Hs) as HW.
  unfold avisos.
  destruct (Rgt_dec _ _) as [G | _]; [lra |].
  destruct (Rgt_dec _ _) as [G | _]; [lra |].
  reflexivity.
Qed.

(** A quotient by a positive divisor lies where its cross products say. *)
Lemma cociente_entre (x s lo hi : R) :
  0 < s -> lo * s < x -> x <= hi * s -> lo < x / s <= hi.
Proof.
  intros Hs Hlo Hhi. split.
  - apply (Rmult_lt_reg_r s); [assumption |].
    unfold Rdiv. rewrite Rmult_assoc, Rinv_l, Rmult_1_r by lra. assumption.
  - apply (Rmult_le_reg_r s); [assumption |].
    unfold Rdiv. rewrite Rmult_assoc, Rinv_l, Rmult_1_r by lra. assumption.
Qed.

Lemma Math_sqrt_30 : 5.477 <= Math_sqrt 30 < 5.478.
Proof. unfold Math_sqrt. apply sqrt_entre; lra. Qed.

Lemma escenario_A1_3m :
  calcularEspaciamientoDetectores 2 3 10 10 =
  Some {| areaM2 := 100;
          numDetectoresMinimo := 4;
          coberturaMaximaM2 := 30;
          espaciamientoMaximoM := 5.48;
          numDetectoresReal := 4;
          detectoresLargo := 2;
          detectoresAncho := 2;
          espaciamientoLargoM := 5;
          espaciamientoAnchoM := 5;
          distanciaParedLargoM := 2.5;
          distanciaParedAnchoM := 2.5;
          valido := true;
          mensaje := [];
          advertencias := [] |}.
Proof.
  unfold calcularEspaciamientoDetectores. cbn [nth_error tiposDetectores].
  rewrite (salida_aceptada _ 3 10 10 30).
  2:{ cbn [alturaMaxM]. lra. }
  2:{ unfold obtenerRangoAltura. destruct (Rle_dec 3 6); [reflexivity | lra]. }
  2:{ lra. }
  pose proof Math_sqrt_30 as Hs.
  assert (Hn : Math_ceil (10 / Math_sqrt 30) = 2).
  { apply (Math_ceil_eq 2). apply cociente_entre; lra. }
  rewrite avisos_vacio by lra.
  rewrite Hn.
  assert (Hmin : Math_ceil (10 * 10 / 30) = 4).
  { apply (Math_ceil_eq 4). lra. }
  assert (Harea : Math_round (10 * 10 * 100) = 10000).
  { apply (Math_round_eq 10000). lra. }
  assert (Hmax : Math_round (Math_sqrt 30 * 100) = 548).
  { apply (Math_round_eq 548). lra. }
  assert (Hesp : Math_round (10 / 2 * 100) = 500).
  { apply (Math_round_eq 500). lra. }
  assert (Hdist : Math_round (10 / 2 / 2 * 100) = 250).
  { apply (Math_round_eq 250). lra. }
  rewrite Hmin, Harea, Hmax, Hesp, Hdist.
  f_equal. f_equal; lra.
Qed.

(** ** Fractional powers of rationals

    [x ^ (p / q)] raised to the power [q] is [x ^ p]: a bound on a
    fractional power is decided by comparing integers. *)

Lemma Rpower_racional (x y : R) (n m : nat) :
  0 < x -> y * INR n = INR m -> Rpower x y ^ n = x ^ m.
Proof.
  intros Hx Hy.
  rewrite <- Rpower_pow by apply exp_pos.
  rewrite Rpower_mult, Hy. now apply Rpower_pow.
Qed.

Lemma pow_lt_inv (x y : R) (n : nat) :
  0 <= y -> x ^ n < y ^ n -> x < y.
Proof.
  intros Hy H. destruct (Rlt_le_dec x y) as [Hlt | Hle]; [assumption |].
  assert (y ^ n <= x ^ n) by (apply pow_incr; lra). lra.
Qed.

Lemma IZR_potencia (k : Z) (n : nat) :
  k = Z.of_nat n -> forall z : Z, IZR (z ^ k) = IZR z ^ n.
Proof. intros -> z. symmetry. apply pow_IZR. Qed.

Lemma fraccion_lt (a b c d : R) :
  0 < b -> 0 < d -> a * d < c * b -> a / b < c / d.
Proof.
  intros Hb Hd H.
  apply (Rmult_lt_reg_r (b * d)); [nra |].
  replace (a / b * (b * d)) with (a * d) by (field; lra).
  replace (c / d * (b * d)) with (c * b) by (field; lra).
  exact H.
Qed.

Lemma exponente_1852 : 1.852 * INR 500 = INR 926.
Proof.
  rewrite !INR_IZR_INZ.
  change (Z.of_nat 500) with 500%Z. change (Z.of_nat 926) with 926%Z. lra.
Qed.

Lemma exponente_487 : 4.87 * INR 500 = INR 2435.
Proof.
  rewrite !INR_IZR_INZ.
  change (Z.of_nat 500) with 500%Z. change (Z.of_nat 2435) with 2435%Z. lra.
Qed.

(** ** Scenario 1 of the friction-loss calculator

    [J ^ 500] is the rational
    [1067^500 * 20^2435 / (100^500 * 120^926 * 120^926)], and
    [0.46014 < J < 0.46015] is the comparison of its numerator and
    denominator with those of [0.46014 ^ 500] and [0.46015 ^ 500]; the
    integers have some 24000 bits and are compared on machine words. *)

Lemma grandes_cota_inferior :
  (46014 ^ 500 * (100 ^ 500 * (120 ^ 926 * 120 ^ 926))
   <? 1067 ^ 500 * 20 ^ 2435 * 100000 ^ 500)%bigZ = true.
Proof. vm_compute. reflexivity. Qed.

Lemma grandes_cota_superior :
  (1067 ^ 500 * 20 ^ 2435 * 100000 ^ 500
   <? 46015 ^ 500 * (100 ^ 500 * (120 ^ 926 * 120 ^ 926)))%bigZ = true.
Proof. vm_compute. reflexivity. Qed.

(** From machine-word integers back to [Z]: the operations by their
    specifications, the numerals by evaluation. *)
Ltac a_enteros H :=
  rewrite BigZ.spec_ltb in H;
  rewrite !BigZ.spec_mul, !BigZ.spec_pow in H;
  change (BigZ.to_Z 46014) with 46014%Z in H;
  change (BigZ.to_Z 46015) with 46015%Z in H;
  change (BigZ.to_Z 100000) with 100000%Z in H;
  change (BigZ.to_Z 100) with 100%Z in H;
  change (BigZ.to_Z 120) with 120%Z in H;
  change (BigZ.to_Z 1067) with 1067%Z in H;
  change (BigZ.to_Z 20) with 20%Z in H;
  change (BigZ.to_Z 500) with 500%Z in H;
  change (BigZ.to_Z 926) with 926%Z in H;
  change (BigZ.to_Z 2435) with 2435%Z in H.

Lemma enteros_cota_inferior :
  (46014 ^ 500 * (100 ^ 500 * (120 ^ 926 * 120 ^ 926))
   <? 1067 ^ 500 * 20 ^ 2435 * 100000 ^ 500)%Z = true.
Proof. pose proof grandes_cota_inferior as H. a_enteros H. exact H. Qed.

Lemma enteros_cota_superior :
  (1067 ^ 500 * 20 ^ 2435 * 100000 ^ 500
   <? 46015 ^ 500 * (100 ^ 500 * (120 ^ 926 * 120 ^ 926)))%Z = true.
Proof. pose proof grandes_cota_superior as H. a_enteros H. exact H. Qed.

Lemma cotas_reales :
  46014 ^ 500 * (100 ^ 500 * (120 ^ 926 * 120 ^ 926))
    < 1067 ^ 500 * 20 ^ 2435 * 100000 ^ 500 /\
  1067 ^ 500 * 20 ^ 2435 * 100000 ^ 500
    < 46015 ^ 500 * (100 ^ 500 * (120 ^ 926 * 120 ^ 926)).
Proof.
  pose proof enteros_cota_inferior as Hlo. apply Z.ltb_lt, IZR_lt in Hlo.
  pose proof enteros_cota_superior as Hhi. apply Z.ltb_lt, IZR_lt in Hhi.
  rewrite !mult_IZR in Hlo, Hhi.
  rewrite !(IZR_potencia 500 500 eq_refl) in Hlo, Hhi.
  rewrite !(IZR_potencia 926 926 eq_refl) in Hlo, Hhi.
  rewrite !(IZR_potencia 2435 2435 eq_refl) in Hlo, Hhi.
  split; assumption.
Qed.

Lemma J_escenario1_nonneg : 0 <= J_escenario1.
Proof.
  unfold J_escenario1. apply Rmult_le_pos.
  - apply Rmult_le_pos; [lra | left; apply exp_pos].
  - left. apply Rinv_0_lt_compat, Rmult_lt_0_compat; apply exp_pos.
Qed.

Lemma J_escenario1_potencia :
  J_escenario1 ^ 500 =
  1067 ^ 500 * 20 ^ 2435 / (100 ^ 500 * (120 ^ 926 * 120 ^ 926)).
Proof.
  unfold J_escenario1, Rdiv.
  repeat (rewrite Rpow_mult_distr || rewrite pow_inv).
  rewrite !(Rpower_racional _ 1.852 500 926) by (lra || exact exponente_1852).
  rewrite (Rpower_racional _ 4.87 500 2435) by (lra || exact exponente_487).
  rewrite ?pow_inv.
  replace 10.67 with (1067 * / 100) by lra.
  rewrite Rpow_mult_distr, pow_inv.
  assert (HA : 0 < 100 ^ 500) by (apply pow_lt; lra).
  assert (HB : 0 < 120 ^ 926) by (apply pow_lt; lra).
  assert (HC : 0 < 20 ^ 2435) by (apply pow_lt; lra).
  set (A := 100 ^ 500) in *. set (B := 120 ^ 926) in *.
  set (C := 20 ^ 2435) in *. set (E := 1067 ^ 500) in *.
  field. lra.
Qed.

Lemma J_escenario1_potencias :
  (46014 / 100000) ^ 500 < J_escenario1 ^ 500 < (46015 / 100000) ^ 500.
Proof.
  assert (HA : 0 < 100 ^ 500) by (apply pow_lt; lra).
  assert (HB : 0 < 120 ^ 926) by (apply pow_lt; lra).
  assert (HF : 0 < 100000 ^ 500) by (apply pow_lt; lra).
  destruct cotas_reales as [Hlo Hhi].
  assert (HD : 0 < 100 ^ 500 * (120 ^ 926 * 120 ^ 926)).
  { apply Rmult_lt_0_compat; [exact HA |]. apply Rmult_lt_0_compat; exact HB. }
  assert (Ediv : forall a b : R, (a / b) ^ 500 = a ^ 500 / b ^ 500).
  { intros a b. unfold Rdiv. now rewrite Rpow_mult_distr, pow_inv. }
  rewrite J_escenario1_potencia, !Ediv.
  split; apply fraccion_lt; assumption.
Qed.

Lemma J_escenario1_cotas : 46014 / 100000 < J_escenario1 < 46015 / 100000.
Proof.
  assert (Hhi0 : 0 <= 46015 / 100000) by lra.
  destruct J_escenario1_potencias as [Hlo Hhi].
  split.
  - exact (pow_lt_inv _ _ 500 J_escenario1_nonneg Hlo).
  - exact (pow_lt_inv _ _ 500 Hhi0 Hhi).
Qed.

(** Machin's formula with two terms of the alternating series on each
    side. *)
Lemma PI_cotas : 3.1415 < PI < 3.1421.
Proof.
  pose proof (PI_2_3_7_ineq 1) as H.
  unfold sum_f_R0, tg_alt, PI_2_3_7_tg, Ratan_seq in H.
  simpl in H.
  lra.
Qed.

Lemma escenario1_valores :
  calcularPerdidaCarga 500 50 100 120 =
  {| perdidaBar := 4.513; velocidadMs := 4.24; perdidaPorMetro := 0.4601 |}.
Proof.
  unfold calcularPerdidaCarga.
  rewrite Math_pow_2 by lra.
  rewrite !Math_pow_pos by lra.
  replace (500 / 60000) with (/ 120) by lra.
  replace (50 / 1000) with (/ 20) by lra.
  fold J_escenario1.
  pose proof J_escenario1_cotas as HJ.
  pose proof PI_cotas as Hpi.
  set (J := J_escenario1) in *.
  assert (Hbar : Math_round (J * 100 / 10.197 * 1000) = 4513).
  { apply (Math_round_eq 4513). lra. }
  assert (Hppm : Math_round (J * 10000) = 4601).
  { apply (Math_round_eq 4601). lra. }
  assert (Hvel : Math_round (/ 120 / (Math_PI * (/ 20 / 2 * (/ 20 / 2))) * 100) = 424).
  { apply (Math_round_eq 424). unfold Math_PI.
    replace (/ 120 / (PI * (/ 20 / 2 * (/ 20 / 2))) * 100) with (4000 / (3 * PI))
      by (field; lra).
    assert (Hlt : 423.5 < 4000 / (3 * PI) <= 424.45).
    { apply cociente_entre; lra. }
    lra. }
  rewrite Hbar, Hppm, Hvel.
  f_equal; lra.
Qed.

(** ** Scenario 2 of the discharge calculator *)

Lemma Math_sqrt_5 : 2.236 <= Math_sqrt 5 < 2.2361.
Proof. unfold Math_sqrt. apply sqrt_entre; lra. Qed.

Lemma escenario2_valor :
  calcularCaudalRociador 80 0.5 = {| caudalLpm := 178.9 |}.
Proof.
  unfold calcularCaudalRociador.
  replace (0.5 * 10) with 5 by lra.
  pose proof Math_sqrt_5 as Hs.
  assert (Hr : Math_round (80 * Math_sqrt 5 * 10) = 1789).
  { apply (Math_round_eq 1789). lra. }
  rewrite Hr. f_equal; lra.
Qed.

(** ** Rounding once, and the monotonicity of the exact pressure drop *)

Lemma redondeado_Math_round (n : nat) (u exacto x : R) :
  u = 10 ^ n -> x = exacto -> redondeado n exacto (Math_round (x * u) / u).
Proof.
  intros -> ->. exists (Zfloor (exacto * 10 ^ n + 1 / 2)). split.
  - reflexivity.
  - apply (Math_round_bound (exacto * 10 ^ n)).
Qed.

Lemma redondeo_le (u x y : R) :
  0 < u -> x <= y -> Math_round (x * u) / u <= Math_round (y * u) / u.
Proof.
  intros Hu Hxy.
  apply Rmult_le_compat_r; [left; now apply Rinv_0_lt_compat |].
  apply Math_round_le. nra.
Qed.

Lemma cociente_mono (a a' b b' : R) :
  0 <= a <= a' -> 0 < b' <= b -> a / b <= a' / b'.
Proof.
  intros [Ha Haa] [Hb' Hbb].
  assert (Hb : 0 < b) by lra.
  apply Rle_trans with (a / b').
  - unfold Rdiv. apply Rmult_le_compat_l; [assumption |].
    apply Rinv_le_contravar; assumption.
  - unfold Rdiv. apply Rmult_le_compat_r; [| assumption].
    left. now apply Rinv_0_lt_compat.
Qed.

(** The pressure drop before rounding, as [calcularPerdidaCarga] computes
    it. *)
Lemma perdidaBar_sin_redondear (q d l c : R) :
  perdidaBar (calcularPerdidaCarga q d l c) =
  Math_round
    (10.67 * Math_pow (q / 60000) 1.852 /
       (Math_pow c 1.852 * Math_pow (d / 1000) 4.87) * l / 10.197 * 1000) / 1000.
Proof. reflexivity. Qed.

Lemma perdidaBar_mono (q q' d d' l l' c c' : R) :
  0 <= q <= q' -> 0 < d' <= d -> 0 <= l <= l' -> 0 < c' <= c ->
  perdidaBar (calcularPerdidaCarga q d l c) <=
  perdidaBar (calcularPerdidaCarga q' d' l' c').
Proof.
  intros Hq Hd Hl Hc. rewrite !perdidaBar_sin_redondear.
  apply redondeo_le; [lra |].
  assert (Hpq : 0 <= Math_pow (q / 60000) 1.852 <= Math_pow (q' / 60000) 1.852).
  { split; [apply Math_pow_nonneg | apply Math_pow_le; lra]. }
  assert (Hpc : 0 < Math_pow c' 1.852 <= Math_pow c 1.852).
  { split; [apply Math_pow_gt0; lra | apply Math_pow_le; lra]. }
  assert (Hpd : 0 < Math_pow (d' / 1000) 4.87 <= Math_pow (d / 1000) 4.87).
  { split; [apply Math_pow_gt0; lra | apply Math_pow_le; lra]. }
  set (pq := Math_pow (q / 60000) 1.852) in *.
  set (pq' := Math_pow (q' / 60000) 1.852) in *.
  set (pc := Math_pow c 1.852) in *. set (pc' := Math_pow c' 1.852) in *.
  set (pd := Math_pow (d / 1000) 4.87) in *.
  set (pd' := Math_pow (d' / 1000) 4.87) in *.
  assert (HJ : 0 <= 10.67 * pq / (pc * pd) <= 10.67 * pq' / (pc' * pd')).
  { split.
    - apply Rmult_le_pos; [nra |].
      left. apply Rinv_0_lt_compat. nra.
    - apply cociente_mono; [nra |]. split; [nra |].
      apply Rmult_le_compat; lra. }
  set (J := 10.67 * pq / (pc * pd)) in *.
  set (J' := 10.67 * pq' / (pc' * pd')) in *.
  assert (HJl : J * l <= J' * l') by (apply Rmult_le_compat; lra).
  lra.
Qed.

(** ** The grid covers the area *)

Lemma ceil_producto (l w c : R) :
  0 < l -> 0 < w -> 0 < c ->
  Math_ceil (l * w / c) <=
  Math_ceil (l / Math_sqrt c) * Math_ceil (w / Math_sqrt c).
Proof.
  intros Hl Hw Hc.
  pose proof (Math_sqrt_gt0 c Hc) as Hs.
  pose proof (Math_sqrt_sqr c (Rlt_le _ _ Hc)) as Hss.
  assert (Ha : 0 < l / Math_sqrt c) by (now apply Rdiv_lt_0_compat).
  assert (Hb : 0 < w / Math_sqrt c) by (now apply Rdiv_lt_0_compat).
  pose proof (Math_ceil_bound (l / Math_sqrt c)) as [_ HA].
  pose proof (Math_ceil_bound (w / Math_sqrt c)) as [_ HB].
  assert (Hab : l * w / c = l / Math_sqrt c * (w / Math_sqrt c)).
  { revert Hs Hss. generalize (Math_sqrt c). intros s Hs <-. field. lra. }
  unfold Math_ceil at 2 3. rewrite <- mult_IZR.
  apply Math_ceil_glb. rewrite mult_IZR. fold (Math_ceil (l / Math_sqrt c)).
  fold (Math_ceil (w / Math_sqrt c)). rewrite Hab.
  apply Rmult_le_compat; lra.
Qed.

Lemma obtenerRangoAltura_bandas (h : R) :
  (h <= 6 -> obtenerRangoAltura h = 0%nat) /\
  (6 < h <= 8 -> obtenerRangoAltura h = 1%nat) /\
  (8 < h <= 10 -> obtenerRangoAltura h = 2%nat) /\
  (10 < h -> obtenerRangoAltura h = 3%nat).
Proof.
  unfold obtenerRangoAltura.
  destruct (Rle_dec h 6), (Rle_dec h 8), (Rle_dec h 10);
    repeat split; intros; (reflexivity || lra).
Qed.

Lemma tabla_A1 : nth_error tiposDetectores 2 = Some detectorA1.
Proof. reflexivity. Qed.

(** Every detector of the shipped table has a positive coverage in every
    band its rated height reaches: from the table, only the height check
    rejects. *)
Lemma tabla_cobertura_positiva (i : nat) (d : TipoDetector) (h : R) :
  nth_error tiposDetectores i = Some d ->
  h <= alturaMaxM d ->
  exists c : R,
    nth_error (coberturaMaxM2 d) (obtenerRangoAltura h) = Some c /\ 0 < c.
Proof.
  intros Hd Hh.
  do 6 (destruct i as [| i];
        [injection Hd as <-; cbn [alturaMaxM coberturaMaxM2] in *;
         unfold obtenerRangoAltura;
         destruct (Rle_dec h 6), (Rle_dec h 8), (Rle_dec h 10);
         try lra; eexists; (split; [reflexivity | lra]) |]).
  destruct i; discriminate.
Qed.

Lemma calcularEspaciamientoDetectores_tabla (i : nat) (d : TipoDetector) (h l w : R) :
  nth_error tiposDetectores i = Some d ->
  calcularEspaciamientoDetectores i h l w = calcularParaDetector d h l w.
Proof.
  intros H. unfold calcularEspaciamientoDetectores. now rewrite H.
Qed.

(** * The claims *)

(** ** hydraulics.ts *)

(** C1, as stated, fails: at flow 500 L/min, diameter 50 mm, length 100 m
    and C = 120 the calculator does not return figures that agree with
    0.313 bar, 0.71 m/s and 0.0031 m/m, even up to one unit of the last
    decimal each is rounded to. *)
Lemma escenario1_no_coincide :
  ~ (aprox 0.001 (perdidaBar (calcularPerdidaCarga 500 50 100 120)) 0.313 /\
     aprox 0.01 (velocidadMs (calcularPerdidaCarga 500 50 100 120)) 0.71 /\
     aprox 0.0001 (perdidaPorMetro (calcularPerdidaCarga 500 50 100 120)) 0.0031).
Proof.
  rewrite escenario1_valores. cbn [perdidaBar velocidadMs perdidaPorMetro].
  unfold aprox. intros [H _]. revert H.
  replace (4.513 - 0.313) with 4.2 by lra.
  rewrite Rabs_pos_eq by lra. lra.
Qed.

(** C1, amended: at flow 500 L/min, inner diameter 50 mm, length 100 m
    and roughness C = 120 the friction-loss calculator returns a pressure
    drop of 4.513 bar, a velocity of 4.24 m/s and a loss of 0.4601 m per
    meter. *)
Theorem escenario1_perdida_carga :
  calcularPerdidaCarga 500 50 100 120 =
  {| perdidaBar := 4.513; velocidadMs := 4.24; perdidaPorMetro := 0.4601 |}.
Proof. exact escenario1_valores. Qed.

(** C5: for positive flow, diameter and C and a non-negative length, the
    three outputs are the specification's exact quantities, each rounded
    once: the head loss per meter
    [J = 10.67 * Q^1.852 / (C^1.852 * D^4.87)] (Q in m3/s, D in m) to 4
    decimals, the pressure drop [J * length / 10.197] to 3 decimals, and
    the velocity [Q / (pi * (D/2)^2)] to 2 decimals.  Each output is
    within half a unit of its last place of the exact value, so no
    intermediate is rounded. *)
Theorem perdida_carga_formula (q d l c : R) :
  0 < q -> 0 < d -> 0 <= l -> 0 < c ->
  redondeado 4 (spec_J (q / 60000) c (d / 1000))
    (perdidaPorMetro (calcularPerdidaCarga q d l c)) /\
  redondeado 3 (spec_perdidaBar (q / 60000) c (d / 1000) l)
    (perdidaBar (calcularPerdidaCarga q d l c)) /\
  redondeado 2 (spec_velocidad (q / 60000) (d / 1000))
    (velocidadMs (calcularPerdidaCarga q d l c)).
Proof.
  intros Hq Hd Hl Hc.
  unfold calcularPerdidaCarga, spec_perdidaBar, spec_J, spec_velocidad.
  cbn [perdidaBar velocidadMs perdidaPorMetro].
  rewrite Math_pow_2 by lra.
  rewrite !Math_pow_pos by lra.
  repeat split.
  - apply redondeado_Math_round; [simpl; lra | reflexivity].
  - apply redondeado_Math_round; [simpl; lra | reflexivity].
  - apply redondeado_Math_round; [simpl; lra |].
    unfold Math_PI. simpl. now rewrite Rmult_1_r.
Qed.

Lemma perdida_carga_formula_testigo :
  redondeado 4 (spec_J (500 / 60000) 120 (50 / 1000))
    (perdidaPorMetro (calcularPerdidaCarga 500 50 100 120)) /\
  redondeado 3 (spec_perdidaBar (500 / 60000) 120 (50 / 1000) 100)
    (perdidaBar (calcularPerdidaCarga 500 50 100 120)) /\
  redondeado 2 (spec_velocidad (500 / 60000) (50 / 1000))
    (velocidadMs (calcularPerdidaCarga 500 50 100 120)).
Proof. apply (perdida_carga_formula 500 50 100 120); lra. Defined.

(** C6: for a positive K-factor and a non-negative pressure the discharge
    calculator returns [K * sqrt (pressure * 10)] rounded once to 1
    decimal; for K = 80 and 0.5 bar it returns 178.9 L/min. *)
Theorem caudal_rociador_formula :
  (forall k p : R, 0 < k -> 0 <= p ->
     caudalLpm (calcularCaudalRociador k p) =
       Math_round (k * Math_sqrt (p * 10) * 10) / 10 /\
     redondeado 1 (spec_caudal k p) (caudalLpm (calcularCaudalRociador k p))) /\
  calcularCaudalRociador 80 0.5 = {| caudalLpm := 178.9 |}.
Proof.
  split.
  - intros k p Hk Hp. split; [reflexivity |].
    unfold calcularCaudalRociador, spec_caudal. cbn [caudalLpm].
    apply redondeado_Math_round; [simpl; lra | reflexivity].
  - exact escenario2_valor.
Qed.

Lemma caudal_rociador_formula_testigo :
  redondeado 1 (spec_caudal 80 0.5) (caudalLpm (calcularCaudalRociador 80 0.5)).
Proof.
  apply (proj1 caudal_rociador_formula 80 0.5); lra.
Defined.

(** C8: over the valid inputs (flow >= 0, diameter > 0, length >= 0,
    C > 0) the returned pressure drop does not decrease when the flow or
    the length grows, and does not increase when the diameter or C grows,
    the other three arguments held fixed. *)
Theorem perdida_bar_monotona (q d l c : R) :
  0 <= q -> 0 < d -> 0 <= l -> 0 < c ->
  (forall q', q <= q' ->
     perdidaBar (calcularPerdidaCarga q d l c) <=
     perdidaBar (calcularPerdidaCarga q' d l c)) /\
  (forall l', l <= l' ->
     perdidaBar (calcularPerdidaCarga q d l c) <=
     perdidaBar (calcularPerdidaCarga q d l' c)) /\
  (forall d', d <= d' ->
     perdidaBar (calcularPerdidaCarga q d' l c) <=
     perdidaBar (calcularPerdidaCarga q d l c)) /\
  (forall c', c <= c' ->
     perdidaBar (calcularPerdidaCarga q d l c') <=
     perdidaBar (calcularPerdidaCarga q d l c)).
Proof.
  intros Hq Hd Hl Hc. repeat split; intros x Hx; apply perdidaBar_mono; lra.
Qed.

Lemma perdida_bar_monotona_testigo :
  perdidaBar (calcularPerdidaCarga 500 50 100 120) <=
  perdidaBar (calcularPerdidaCarga 600 50 100 120) /\
  perdidaBar (calcularPerdidaCarga 500 50 100 120) <=
  perdidaBar (calcularPerdidaCarga 500 50 150 120) /\
  perdidaBar (calcularPerdidaCarga 500 65 100 120) <=
  perdidaBar (calcularPerdidaCarga 500 50 100 120) /\
  perdidaBar (calcularPerdidaCarga 500 50 100 140) <=
  perdidaBar (calcularPerdidaCarga 500 50 100 120).
Proof.
  assert (H0 : 0 <= 500) by lra. assert (H1 : 0 < 50) by lra.
  assert (H2 : 0 <= 100) by lra. assert (H3 : 0 < 120) by lra.
  destruct (perdida_bar_monotona 500 50 100 120 H0 H1 H2 H3)
    as (Hq & Hl & Hd & Hc).
  repeat split; [apply Hq | apply Hl | apply Hd | apply Hc]; lra.
Defined.

(** ** detection.ts *)

(** C2, as stated, fails: for the thermal class A1 detector (rated to
    7.5 m) under a 9 m ceiling in a 10 m by 10 m room, the rejection does
    not have every numeric field zero: the area is 100. *)
Lemma rechazo_por_altura_area :
  ~ (exists r : ResultadoDetectores,
       calcularEspaciamientoDetectores 2 9 10 10 = Some r /\
       valido r = false /\ todo_a_cero r /\
       In (Numero 7.5) (mensaje r)).
Proof.
  intros (r & Hr & _ & Hz & _).
  rewrite (calcularEspaciamientoDetectores_tabla 2 detectorA1) in Hr
    by exact tabla_A1.
  rewrite salida_altura in Hr by (cbn [alturaMaxM detectorA1]; lra).
  injection Hr as <-. destruct Hz as [Harea _].
  cbn [areaM2 rechazo] in Harea. lra.
Qed.

(** C2, amended: for every detector type and every ceiling height
    strictly above the detector's [alturaMaxM], the planner returns a
    terminal rejection: [valido] is false, every computed field other
    than the area (counts, coverage, spacings, wall offsets) is zero, the
    area is the product of length and width, the message names the
    detector's height limit, and there are no warnings. *)
Theorem rechazo_por_altura (d : TipoDetector) (h l w : R) :
  h > alturaMaxM d ->
  calcularParaDetector d h l w =
  Some {| areaM2 := l * w;
          numDetectoresMinimo := 0;
          coberturaMaximaM2 := 0;
          espaciamientoMaximoM := 0;
          numDetectoresReal := 0;
          detectoresLargo := 0;
          detectoresAncho := 0;
          espaciamientoLargoM := 0;
          espaciamientoAnchoM := 0;
          distanciaParedLargoM := 0;
          distanciaParedAnchoM := 0;
          valido := false;
          mensaje := [Texto "La altura maxima para este detector es ";
                      Numero (alturaMaxM d); Texto "m"];
          advertencias := [] |}.
Proof. intros H. now rewrite salida_altura. Qed.

Lemma rechazo_por_altura_testigo :
  9 > alturaMaxM detectorA1 /\
  calcularParaDetector detectorA1 9 10 10 =
  Some {| areaM2 := 10 * 10;
          numDetectoresMinimo := 0;
          coberturaMaximaM2 := 0;
          espaciamientoMaximoM := 0;
          numDetectoresReal := 0;
          detectoresLargo := 0;
          detectoresAncho := 0;
          espaciamientoLargoM := 0;
          espaciamientoAnchoM := 0;
          distanciaParedLargoM := 0;
          distanciaParedAnchoM := 0;
          valido := false;
          mensaje := [Texto "La altura maxima para este detector es ";
                      Numero (alturaMaxM detectorA1); Texto "m"];
          advertencias := [] |}.
Proof.
  assert (H : 9 > alturaMaxM detectorA1) by (cbn [alturaMaxM detectorA1]; lra).
  split; [exact H | exact (rechazo_por_altura detectorA1 9 10 10 H)].
Defined.

(** C7: for every detector type and every ceiling height not above its
    [alturaMaxM], the height band is resolved by the breakpoints 6, 8 and
    10 m (band 0 up to 6, band 1 above 6 up to 8, band 2 above 8 up to
    10, band 3 above 10), and when the coverage table holds 0 for that
    band the planner returns a terminal rejection with [valido] false and
    the "not suitable" message, which is not the "maximum height"
    message. *)
Theorem rechazo_no_adecuado (d : TipoDetector) (h l w : R) :
  h <= alturaMaxM d ->
  ((h <= 6 -> obtenerRangoAltura h = 0%nat) /\
   (6 < h <= 8 -> obtenerRangoAltura h = 1%nat) /\
   (8 < h <= 10 -> obtenerRangoAltura h = 2%nat) /\
   (10 < h -> obtenerRangoAltura h = 3%nat)) /\
  (nth_error (coberturaMaxM2 d) (obtenerRangoAltura h) = Some 0 ->
   exists r : ResultadoDetectores,
     calcularParaDetector d h l w = Some r /\
     valido r = false /\
     mensaje r =
       [Texto "Este tipo de detector no es adecuado para esta altura"] /\
     mensaje r <> mensajeAlturaMaxima d /\
     numDetectoresReal r = 0 /\
     advertencias r = []).
Proof.
  intros Hh. split; [apply obtenerRangoAltura_bandas |].
  intros Hc. exists (rechazo (l * w) mensajeNoAdecuado).
  split; [now apply salida_no_adecuado |].
  cbn [valido mensaje numDetectoresReal advertencias rechazo].
  repeat split; try reflexivity.
  unfold mensajeNoAdecuado, mensajeAlturaMaxima. discriminate.
Qed.

Lemma rechazo_no_adecuado_testigo :
  7 <= alturaMaxM detectorSinBanda1 /\
  obtenerRangoAltura 7 = 1%nat /\
  exists r : ResultadoDetectores,
    calcularParaDetector detectorSinBanda1 7 10 10 = Some r /\
    valido r = false /\
    mensaje r =
      [Texto "Este tipo de detector no es adecuado para esta altura"].
Proof.
  assert (H : 7 <= alturaMaxM detectorSinBanda1)
    by (cbn [alturaMaxM detectorSinBanda1]; lra).
  destruct (rechazo_no_adecuado detectorSinBanda1 7 10 10 H)
    as [(_ & Hb1 & _) Hrej].
  assert (Hb : obtenerRangoAltura 7 = 1%nat) by (apply Hb1; lra).
  split; [exact H |]. split; [exact Hb |].
  destruct Hrej as (r & Hr & Hv & Hm & _).
  { rewrite Hb. reflexivity. }
  exists r. repeat split; assumption.
Defined.

(** C3: on every accepted layout (ceiling height within the detector's
    maximum, band coverage [c] non-zero) the planner takes the maximum
    spacing [sqrt c] (returned rounded to 2 decimals), places
    [ceil (length / sqrt c)] detectors along the length and
    [ceil (width / sqrt c)] along the width, and returns their product
    as the total.  For the detector rated to 7.5 m with coverage
    [30, 20, 0, 0], a 10 m by 10 m room and a 3 m ceiling it returns a
    maximum spacing of 5.48, a 2 by 2 grid, a real spacing of 5 on each
    axis, [valido] true and no warnings. *)
Theorem rejilla_aceptada :
  (forall (d : TipoDetector) (h l w c : R),
     h <= alturaMaxM d ->
     nth_error (coberturaMaxM2 d) (obtenerRangoAltura h) = Some c ->
     0 < c ->
     exists r : ResultadoDetectores,
       calcularParaDetector d h l w = Some r /\
       valido r = true /\
       coberturaMaximaM2 r = c /\
       espaciamientoMaximoM r = Math_round (Math_sqrt c * 100) / 100 /\
       detectoresLargo r = Math_ceil (l / Math_sqrt c) /\
       detectoresAncho r = Math_ceil (w / Math_sqrt c) /\
       numDetectoresReal r = detectoresLargo r * detectoresAncho r) /\
  calcularEspaciamientoDetectores 2 3 10 10 =
  Some {| areaM2 := 100;
          numDetectoresMinimo := 4;
          coberturaMaximaM2 := 30;
          espaciamientoMaximoM := 5.48;
          numDetectoresReal := 4;
          detectoresLargo := 2;
          detectoresAncho := 2;
          espaciamientoLargoM := 5;
          espaciamientoAnchoM := 5;
          distanciaParedLargoM := 2.5;
          distanciaParedAnchoM := 2.5;
          valido := true;
          mensaje := [];
          advertencias := [] |}.
Proof.
  split; [| exact escenario_A1_3m].
  intros d h l w c Hh Hb Hc.
  eexists. split.
  - apply (salida_aceptada d h l w c); [assumption | assumption | lra].
  - cbn. repeat split; reflexivity.
Qed.

Lemma rejilla_aceptada_testigo :
  exists r : ResultadoDetectores,
    calcularParaDetector detectorA1 3 10 10 = Some r /\
    valido r = true /\
    coberturaMaximaM2 r = 30 /\
    espaciamientoMaximoM r = Math_round (Math_sqrt 30 * 100) / 100 /\
    detectoresLargo r = Math_ceil (10 / Math_sqrt 30) /\
    detectoresAncho r = Math_ceil (10 / Math_sqrt 30) /\
    numDetectoresReal r = detectoresLargo r * detectoresAncho r.
Proof.
  apply (proj1 rejilla_aceptada detectorA1 3 10 10 30).
  - cbn [alturaMaxM detectorA1]. lra.
  - unfold obtenerRangoAltura. destruct (Rle_dec 3 6); [reflexivity | lra].
  - lra.
Defined.

Section Aceptado.

  (** An accepted call: the ceiling is within the detector's rated
      height and the coverage of its band is a positive area. *)
  Variables (detector : TipoDetector) (alturaM largoM anchoM c : R).
  Hypothesis Haltura : alturaM <= alturaMaxM detector.
  Hypothesis Hbanda :
    nth_error (coberturaMaxM2 detector) (obtenerRangoAltura alturaM) = Some c.
  Hypothesis Hc : 0 < c.


(** C9: on every accepted layout of a room of positive length and width,
    in exact arithmetic, the real spacing on each axis (the axis length
    divided by [ceil (axis length / maximum spacing)]) never exceeds the
    maximum spacing itself, so neither warning is pushed: the planner
    returns a valid result whose warnings list is empty. *)
Theorem espaciamiento_sin_advertencias :
  0 < largoM -> 0 < anchoM ->
  largoM / Math_ceil (largoM / Math_sqrt c) <= Math_sqrt c /\
  anchoM / Math_ceil (anchoM / Math_sqrt c) <= Math_sqrt c /\
  exists r : ResultadoDetectores,
    calcularParaDetector detector alturaM largoM anchoM = Some r /\
    valido r = true /\
    advertencias r = [].
Proof.
  intros Hl Hw.
  pose proof (Math_sqrt_gt0 c Hc) as Hs.
  split; [now apply espaciamiento_bajo_maximo |].
  split; [now apply espaciamiento_bajo_maximo |].
  eexists. split.
  { apply (salida_aceptada detector alturaM largoM anchoM c);
      [exact Haltura | exact Hbanda | lra]. }
  cbn [valido advertencias]. split; [reflexivity |].
  now apply avisos_vacio.
Qed.

(** C10, amended: in exact real arithmetic, on every accepted layout of a
    room of positive length and width, the real grid count
    [ceil (length / maxSpacing) * ceil (width / maxSpacing)] is at least
    the theoretical minimum [ceil (length * width / coverage)]. *)
Theorem real_no_menor_que_minimo :
  0 < largoM -> 0 < anchoM ->
  exists r : ResultadoDetectores,
    calcularParaDetector detector alturaM largoM anchoM = Some r /\
    valido r = true /\
    numDetectoresReal r =
      Math_ceil (largoM / Math_sqrt c) * Math_ceil (anchoM / Math_sqrt c) /\
    numDetectoresMinimo r = Math_ceil (largoM * anchoM / c) /\
    numDetectoresMinimo r <= numDetectoresReal r.
Proof.
  intros Hl Hw.
  eexists. split.
  { apply (salida_aceptada detector alturaM largoM anchoM c);
      [exact Haltura | exact Hbanda | lra]. }
  cbn [valido numDetectoresReal numDetectoresMinimo].
  repeat split; try reflexivity.
  now apply ceil_producto.
Qed.

End Aceptado.

Lemma banda_3m : obtenerRangoAltura 3 = 0%nat.
Proof. unfold obtenerRangoAltura. destruct (Rle_dec 3 6); [reflexivity | lra]. Qed.

Lemma altura_3m_A1 : 3 <= alturaMaxM detectorA1.
Proof. cbn [alturaMaxM detectorA1]. lra. Qed.

Lemma cobertura_3m_A1 :
  nth_error (coberturaMaxM2 detectorA1) (obtenerRangoAltura 3) = Some 30.
Proof. rewrite banda_3m. reflexivity. Qed.

Lemma treinta_positivo : 0 < 30.
Proof. lra. Qed.






Lemma espaciamiento_sin_advertencias_testigo :
  10 / Math_ceil (10 / Math_sqrt 30) <= Math_sqrt 30 /\
  10 / Math_ceil (10 / Math_sqrt 30) <= Math_sqrt 30 /\
  exists r : ResultadoDetectores,
    calcularParaDetector detectorA1 3 10 10 = Some r /\
    valido r = true /\
    advertencias r = [].
Proof.
  apply (espaciamiento_sin_advertencias detectorA1 3 10 10 30
           altura_3m_A1 cobertura_3m_A1 treinta_positivo); lra.
Defined.

(** The binary64 planner agrees with the exact one on scenario 3 and on
    the layout with a negative length. *)
Lemma escenario_A1_3m_binary64 :
  Binary64.calcularEspaciamientoDetectores 2 3 10 10 =
  Some {| Binary64.areaM2 := 100;
          Binary64.numDetectoresMinimo := 4;
          Binary64.coberturaMaximaM2 := 30;
          Binary64.espaciamientoMaximoM := 0x1.5eb851eb851ecp+2;
          Binary64.numDetectoresReal := 4;
          Binary64.detectoresLargo := 2;
          Binary64.detectoresAncho := 2;
          Binary64.espaciamientoLargoM := 5;
          Binary64.espaciamientoAnchoM := 5;
          Binary64.distanciaParedLargoM := 2.5;
          Binary64.distanciaParedAnchoM := 2.5;
          Binary64.valido := true;
          Binary64.mensaje := [];
          Binary64.advertencias := [] |}%float.
Proof. vm_compute. reflexivity. Qed.

Lemma escenario_A1_largo_negativo_binary64 :
  Binary64.calcularEspaciamientoDetectores 2 3 (-10) 10 =
  Some {| Binary64.areaM2 := -100;
          Binary64.numDetectoresMinimo := -3;
          Binary64.coberturaMaximaM2 := 30;
          Binary64.espaciamientoMaximoM := 0x1.5eb851eb851ecp+2;
          Binary64.numDetectoresReal := -2;
          Binary64.detectoresLargo := -1;
          Binary64.detectoresAncho := 2;
          Binary64.espaciamientoLargoM := 10;
          Binary64.espaciamientoAnchoM := 5;
          Binary64.distanciaParedLargoM := 5;
          Binary64.distanciaParedAnchoM := 2.5;
          Binary64.valido := true;
          Binary64.mensaje := [];
          Binary64.advertencias :=
            [[Binary64.Texto "Espaciamiento en largo ("; Binary64.Fijo2 10;
              Binary64.Texto "m) supera el maximo (";
              Binary64.Fijo2 (Binary64.Math_sqrt 30);
              Binary64.Texto "m)"]] |}%float.
Proof. vm_compute. reflexivity. Qed.

Lemma raiz80_es_la_raiz : Binary64.Math_sqrt 80 = Binary64.raiz80.
Proof. reflexivity. Qed.

(** C10, as stated, fails on the doubles the program computes with: for
    the optical smoke detector (coverage 80 m2 under a 3 m ceiling) and a
    room of 8.94427190999916 m by 8.94427190999916 m, the double
    [Math.sqrt(80)] on each side, the product of the sides is
    80.00000000000001, so the theoretical minimum is [ceil] of
    1.0000000000000002, that is 2, while each side divided by the maximum
    spacing is exactly 1 and the real grid is 1 by 1. *)
Lemma minimo_supera_real_binary64 :
  exists r : Binary64.ResultadoDetectores,
    Binary64.calcularEspaciamientoDetectores
      0 3 Binary64.raiz80 Binary64.raiz80 = Some r /\
    Binary64.valido r = true /\
    Binary64.numDetectoresMinimo r = 2%float /\
    Binary64.numDetectoresReal r = 1%float /\
    PrimFloat.leb (Binary64.numDetectoresMinimo r)
                  (Binary64.numDetectoresReal r) = false.
Proof.
  eexists. split; [vm_compute; reflexivity |].
  repeat split; vm_compute; reflexivity.
Qed.

Lemma real_no_menor_que_minimo_testigo :
  exists r : ResultadoDetectores,
    calcularParaDetector detectorA1 3 10 10 = Some r /\
    valido r = true /\
    numDetectoresReal r =
      Math_ceil (10 / Math_sqrt 30) * Math_ceil (10 / Math_sqrt 30) /\
    numDetectoresMinimo r = Math_ceil (10 * 10 / 30) /\
    numDetectoresMinimo r <= numDetectoresReal r.
Proof.
  apply (real_no_menor_que_minimo detectorA1 3 10 10 30
           altura_3m_A1 cobertura_3m_A1 treinta_positivo); lra.
Defined.

(** * Further properties of the calculators *)

(** ** hydraulics.ts and its pages *)

Lemma Math_round_0 : Math_round 0 = 0.
Proof. apply (Math_round_eq 0). lra. Qed.

(** The outputs of [calcularPerdidaCarga] before rounding, on the
    calculator's domain. *)
Lemma calcularPerdidaCarga_sin_redondear (q d l c : R) :
  0 <= d ->
  calcularPerdidaCarga q d l c =
  {| perdidaBar :=
       Math_round
         (10.67 * Math_pow (q / 60000) 1.852 /
            (Math_pow c 1.852 * Math_pow (d / 1000) 4.87) * l / 10.197 * 1000)
       / 1000;
     velocidadMs :=
       Math_round
         (q / 60000 / (PI * (d / 1000 / 2 * (d / 1000 / 2))) * 100) / 100;
     perdidaPorMetro :=
       Math_round
         (10.67 * Math_pow (q / 60000) 1.852 /
            (Math_pow c 1.852 * Math_pow (d / 1000) 4.87) * 10000) / 10000 |}.
Proof.
  intros Hd. unfold calcularPerdidaCarga, Math_PI.
  rewrite Math_pow_2 by lra. reflexivity.
Qed.

Lemma seccion_positiva (d : R) :
  0 < d -> 0 < PI * (d / 1000 / 2 * (d / 1000 / 2)).
Proof.
  intros Hd. apply Rmult_lt_0_compat; [apply PI_RGT_0 |].
  apply Rmult_lt_0_compat; lra.
Qed.

Lemma J_no_negativo (q d c : R) :
  0 < d -> 0 < c ->
  0 <= 10.67 * Math_pow (q / 60000) 1.852 /
         (Math_pow c 1.852 * Math_pow (d / 1000) 4.87).
Proof.
  intros Hd Hc.
  pose proof (Math_pow_nonneg (q / 60000) 1.852) as Hq.
  pose proof (Math_pow_gt0 c 1.852 Hc) as Hpc.
  assert (Hpd : 0 < Math_pow (d / 1000) 4.87) by (apply Math_pow_gt0; lra).
  apply Rmult_le_pos; [nra |].
  left. apply Rinv_0_lt_compat. nra.
Qed.



(** A pipe of length zero loses no pressure, while the loss per meter
    and the velocity are those of any other length. *)
Theorem longitud_nula_sin_perdida (q d l c : R) :
  0 <= q -> 0 < d -> 0 < c ->
  perdidaBar (calcularPerdidaCarga q d 0 c) = 0 /\
  perdidaPorMetro (calcularPerdidaCarga q d 0 c) =
    perdidaPorMetro (calcularPerdidaCarga q d l c) /\
  velocidadMs (calcularPerdidaCarga q d 0 c) =
    velocidadMs (calcularPerdidaCarga q d l c).
Proof.
  intros Hq Hd Hc.
  rewrite !calcularPerdidaCarga_sin_redondear by lra.
  cbn [perdidaBar perdidaPorMetro velocidadMs].
  repeat split.
  set (J := 10.67 * Math_pow (q / 60000) 1.852 /
              (Math_pow c 1.852 * Math_pow (d / 1000) 4.87)).
  replace (J * 0 / 10.197 * 1000) with 0 by lra.
  rewrite Math_round_0. lra.
Qed.

Lemma longitud_nula_sin_perdida_testigo :
  perdidaBar (calcularPerdidaCarga 500 50 0 120) = 0 /\
  perdidaPorMetro (calcularPerdidaCarga 500 50 0 120) =
    perdidaPorMetro (calcularPerdidaCarga 500 50 100 120) /\
  velocidadMs (calcularPerdidaCarga 500 50 0 120) =
    velocidadMs (calcularPerdidaCarga 500 50 100 120).
Proof. apply (longitud_nula_sin_perdida 500 50 100 120); lra. Defined.

(** On valid inputs none of the three outputs is negative. *)
Theorem perdida_carga_no_negativa (q d l c : R) :
  0 <= q -> 0 < d -> 0 <= l -> 0 < c ->
  0 <= perdidaBar (calcularPerdidaCarga q d l c) /\
  0 <= velocidadMs (calcularPerdidaCarga q d l c) /\
  0 <= perdidaPorMetro (calcularPerdidaCarga q d l c).
Proof.
  intros Hq Hd Hl Hc.
  rewrite calcularPerdidaCarga_sin_redondear by lra.
  cbn [perdidaBar perdidaPorMetro velocidadMs].
  pose proof (J_no_negativo q d c Hd Hc) as HJ.
  pose proof (seccion_positiva d Hd) as HA.
  set (J := 10.67 * Math_pow (q / 60000) 1.852 /
              (Math_pow c 1.852 * Math_pow (d / 1000) 4.87)) in *.
  set (A := PI * (d / 1000 / 2 * (d / 1000 / 2))) in *.
  assert (Hv : 0 <= q / 60000 / A).
  { apply Rmult_le_pos; [lra |]. left. now apply Rinv_0_lt_compat. }
  assert (HJl : 0 <= J * l) by (apply Rmult_le_pos; assumption).
  repeat split.
  - apply Rmult_le_pos; [apply Math_round_nonneg; lra | lra].
  - apply Rmult_le_pos; [apply Math_round_nonneg; lra | lra].
  - apply Rmult_le_pos; [apply Math_round_nonneg; lra | lra].
Qed.

Lemma perdida_carga_no_negativa_testigo :
  0 <= perdidaBar (calcularPerdidaCarga 500 50 100 120) /\
  0 <= velocidadMs (calcularPerdidaCarga 500 50 100 120) /\
  0 <= perdidaPorMetro (calcularPerdidaCarga 500 50 100 120).
Proof. apply (perdida_carga_no_negativa 500 50 100 120); lra. Defined.

(** The velocity grows with the flow and falls with the diameter; the
    loss per meter grows with the flow and falls with the diameter and
    with C. *)
Theorem velocidad_y_pendiente_monotonas (q q' d d' l l' c c' : R) :
  0 <= q <= q' -> 0 < d' <= d -> 0 < c' <= c ->
  velocidadMs (calcularPerdidaCarga q d l c) <=
    velocidadMs (calcularPerdidaCarga q' d' l' c') /\
  perdidaPorMetro (calcularPerdidaCarga q d l c) <=
    perdidaPorMetro (calcularPerdidaCarga q' d' l' c').
Proof.
  intros Hq Hd Hc.
  rewrite !calcularPerdidaCarga_sin_redondear by lra.
  cbn [perdidaPorMetro velocidadMs]. split.
  - apply redondeo_le; [lra |].
    apply cociente_mono; [lra |]. split; [apply seccion_positiva; lra |].
    apply Rmult_le_compat_l; [left; apply PI_RGT_0 |].
    apply Rmult_le_compat; lra.
  - apply redondeo_le; [lra |].
    assert (Hpq : 0 <= Math_pow (q / 60000) 1.852 <= Math_pow (q' / 60000) 1.852).
    { split; [apply Math_pow_nonneg | apply Math_pow_le; lra]. }
    assert (Hpc : 0 < Math_pow c' 1.852 <= Math_pow c 1.852).
    { split; [apply Math_pow_gt0; lra | apply Math_pow_le; lra]. }
    assert (Hpd : 0 < Math_pow (d' / 1000) 4.87 <= Math_pow (d / 1000) 4.87).
    { split; [apply Math_pow_gt0; lra | apply Math_pow_le; lra]. }
    apply cociente_mono; [nra |]. split; [nra |].
    apply Rmult_le_compat; lra.
Qed.

Lemma velocidad_y_pendiente_monotonas_testigo :
  velocidadMs (calcularPerdidaCarga 500 65 100 140) <=
    velocidadMs (calcularPerdidaCarga 600 50 30 120) /\
  perdidaPorMetro (calcularPerdidaCarga 500 65 100 140) <=
    perdidaPorMetro (calcularPerdidaCarga 600 50 30 120).
Proof.
  apply (velocidad_y_pendiente_monotonas 500 600 65 50 100 30 140 120); lra.
Defined.

(** The rounded outputs against the exact quantities they come from. *)
Lemma salidas_redondeadas (q d l c : R) :
  0 < q -> 0 < d -> 0 < c ->
  redondeado 3 (spec_perdidaBar (q / 60000) c (d / 1000) l)
    (perdidaBar (calcularPerdidaCarga q d l c)) /\
  redondeado 2 (spec_velocidad (q / 60000) (d / 1000))
    (velocidadMs (calcularPerdidaCarga q d l c)).
Proof.
  intros Hq Hd Hc.
  rewrite calcularPerdidaCarga_sin_redondear by lra.
  cbn [perdidaBar velocidadMs].
  unfold spec_perdidaBar, spec_J, spec_velocidad.
  rewrite !Math_pow_pos by lra. split.
  - apply redondeado_Math_round; [simpl; lra | reflexivity].
  - apply redondeado_Math_round; [simpl; lra |].
    simpl. now rewrite Rmult_1_r.
Qed.

Lemma toFixed_2_cerca (x : R) : - 0.005 <= toFixed_2 x - x <= 0.005.
Proof.
  unfold toFixed_2. destruct (Rlt_dec x 0).
  - pose proof (Zfloor_bound (- x * 100 + 1 / 2)) as H. lra.
  - pose proof (Zfloor_bound (x * 100 + 1 / 2)) as H. lra.
Qed.

(** PerdidaCarga.tsx shows the pressure drop again in meters of water
    column, with two decimals; the figure shown, computed from the
    rounded pressure drop, is within 0.0101 m of the total head loss
    [J * length]. *)
Theorem perdida_mca_recupera_total (q d l c : R) :
  0 < q -> 0 < d -> 0 < c ->
  Rabs (perdidaMca (calcularPerdidaCarga q d l c)
        - spec_J (q / 60000) c (d / 1000) * l) <= 0.0101.
Proof.
  intros Hq Hd Hc.
  destruct (salidas_redondeadas q d l c Hq Hd Hc) as [Hbar _].
  destruct Hbar as (z & Hz & Hcota). unfold perdidaMca.
  pose proof (toFixed_2_cerca (perdidaBar (calcularPerdidaCarga q d l c) * 10.197))
    as Hfix.
  set (m := toFixed_2 (perdidaBar (calcularPerdidaCarga q d l c) * 10.197)) in *.
  rewrite Hz in Hfix.
  unfold spec_perdidaBar in Hcota.
  set (T := spec_J (q / 60000) c (d / 1000) * l) in *.
  simpl pow in *. apply Rabs_le. lra.
Qed.

Lemma perdida_mca_recupera_total_testigo :
  Rabs (perdidaMca (calcularPerdidaCarga 500 50 100 120)
        - spec_J (500 / 60000) 120 (50 / 1000) * 100) <= 0.0101.
Proof. apply (perdida_mca_recupera_total 500 50 100 120); lra. Defined.

(** PerdidaCarga.tsx warns of a velocity above 6 m/s by testing the
    rounded figure: the warning shows exactly when the exact velocity is
    at least 6.005 m/s. *)
Theorem aviso_velocidad_umbral (q d l c : R) :
  0 < q -> 0 < d -> 0 < c ->
  avisoVelocidad (calcularPerdidaCarga q d l c) = true <->
  6.005 <= spec_velocidad (q / 60000) (d / 1000).
Proof.
  intros Hq Hd Hc.
  destruct (salidas_redondeadas q d l c Hq Hd Hc) as [_ Hvel].
  destruct Hvel as (z & Hz & Hcota). unfold avisoVelocidad. rewrite Hz.
  set (v := spec_velocidad (q / 60000) (d / 1000)) in *.
  simpl pow in *.
  destruct (Rgt_dec (IZR z / (10 * (10 * 1))) 6) as [G | G]; split; intros H.
  - assert (Hz600 : (600 < z)%Z) by (apply lt_IZR; lra).
    assert (Hz601 : IZR 601 <= IZR z) by (apply IZR_le; lia).
    lra.
  - reflexivity.
  - discriminate.
  - exfalso. apply G.
    assert (Hz600 : (600 < z)%Z) by (apply lt_IZR; lra).
    assert (Hz601 : IZR 601 <= IZR z) by (apply IZR_le; lia).
    lra.
Qed.

Lemma aviso_velocidad_umbral_testigo :
  avisoVelocidad (calcularPerdidaCarga 500 50 100 120) = true <->
  6.005 <= spec_velocidad (500 / 60000) (50 / 1000).
Proof. apply (aviso_velocidad_umbral 500 50 100 120); lra. Defined.


Lemma caudal_mono (k1 k2 p1 p2 : R) :
  0 <= k1 <= k2 -> 0 <= p1 <= p2 ->
  0 <= caudalLpm (calcularCaudalRociador k1 p1) <=
       caudalLpm (calcularCaudalRociador k2 p2).
Proof.
  intros Hk Hp. unfold calcularCaudalRociador, Math_sqrt. cbn [caudalLpm].
  assert (Hs1 : 0 <= sqrt (p1 * 10)) by apply sqrt_pos.
  assert (Hs : sqrt (p1 * 10) <= sqrt (p2 * 10)) by (apply sqrt_le_1_alt; lra).
  assert (Hk1 : 0 <= k1 * sqrt (p1 * 10)) by (apply Rmult_le_pos; lra).
  assert (Hks : k1 * sqrt (p1 * 10) <= k2 * sqrt (p2 * 10))
    by (apply Rmult_le_compat; lra).
  split.
  - apply Rmult_le_pos; [apply Math_round_nonneg; lra | lra].
  - apply redondeo_le; lra.
Qed.

(** The discharge is never negative and grows with the K-factor and with
    the pressure. *)
Theorem caudal_monotono (k1 k2 p1 p2 : R) :
  0 <= k1 <= k2 -> 0 <= p1 <= p2 ->
  0 <= caudalLpm (calcularCaudalRociador k1 p1) <=
       caudalLpm (calcularCaudalRociador k2 p2).
Proof. exact (caudal_mono k1 k2 p1 p2). Qed.

Lemma caudal_monotono_testigo :
  0 <= caudalLpm (calcularCaudalRociador 80 0.5) <=
       caudalLpm (calcularCaudalRociador 115 1).
Proof. apply (caudal_monotono 80 115 0.5 1); lra. Defined.

(** The square-root law: four times the pressure gives twice the exact
    flow, and the calculator returns that doubled flow rounded once. *)
Theorem cuadruple_presion_doble_caudal (factorK p : R) :
  0 <= p ->
  redondeado 1 (2 * spec_caudal factorK p)
    (caudalLpm (calcularCaudalRociador factorK (4 * p))).
Proof.
  intros Hp. unfold calcularCaudalRociador, spec_caudal, Math_sqrt.
  cbn [caudalLpm].
  apply redondeado_Math_round; [simpl; lra |].
  replace (4 * p * 10) with (2 * 2 * (p * 10)) by ring.
  rewrite sqrt_mult by lra. rewrite sqrt_square by lra. ring.
Qed.

Lemma cuadruple_presion_doble_caudal_testigo :
  redondeado 1 (2 * spec_caudal 80 0.5)
    (caudalLpm (calcularCaudalRociador 80 (4 * 0.5))).
Proof. apply (cuadruple_presion_doble_caudal 80 0.5); lra. Defined.

(** Across the materials of [coeficientesC], plastic pipe (C = 150)
    gives the least pressure drop and aged steel or cast iron (C = 100)
    the greatest, for the same flow, bore and length. *)
Theorem perdida_entre_materiales (m : CoeficienteC) (q d l : R) :
  In m coeficientesC -> 0 <= q -> 0 < d -> 0 <= l ->
  perdidaBar (calcularPerdidaCarga q d l 150) <=
    perdidaBar (calcularPerdidaCarga q d l (valor m)) <=
    perdidaBar (calcularPerdidaCarga q d l 100).
Proof.
  intros Hm Hq Hd Hl.
  assert (Hv : 100 <= valor m <= 150).
  { unfold coeficientesC in Hm. cbn [In] in Hm.
    repeat (destruct Hm as [<- | Hm]; [cbn [valor]; lra |]).
    contradiction. }
  split; apply perdidaBar_mono; lra.
Qed.

Lemma perdida_entre_materiales_testigo :
  perdidaBar (calcularPerdidaCarga 500 50 100 150) <=
    perdidaBar (calcularPerdidaCarga 500 50 100 140) <=
    perdidaBar (calcularPerdidaCarga 500 50 100 100).
Proof.
  apply (perdida_entre_materiales {| material := "Cobre"; valor := 140 |}
           500 50 100); try lra.
  cbn [In coeficientesC]. do 5 right. left. reflexivity.
Defined.

(** [factoresK] lists the sprinklers by increasing K, so at any pressure
    a later entry of the table discharges at least as much as an earlier
    one. *)
Theorem caudal_crece_en_la_tabla (i j : nat) (f g : FactorK) (p : R) :
  nth_error factoresK i = Some f -> nth_error factoresK j = Some g ->
  (i <= j)%nat -> 0 <= p ->
  caudalLpm (calcularCaudalRociador (k f) p) <=
  caudalLpm (calcularCaudalRociador (k g) p).
Proof.
  intros Hf Hg Hij Hp.
  assert (Hk : 0 <= k f <= k g).
  { unfold factoresK in Hf, Hg.
    do 6 (destruct i as [| i];
          [ injection Hf as <-;
            do 6 (destruct j as [| j];
                  [ first [ lia | injection Hg as <-; cbn [k]; lra ] |]);
            destruct j; discriminate |]).
    destruct i; discriminate. }
  apply (caudal_mono (k f) (k g) p p); lra.
Qed.

Lemma caudal_crece_en_la_tabla_testigo :
  caudalLpm (calcularCaudalRociador 80 0.5) <=
  caudalLpm (calcularCaudalRociador 200 0.5).
Proof.
  apply (caudal_crece_en_la_tabla 0 3
           {| tipo := ("Rociador estandar (1/2" ++ pulgadas ++ ")")%string;
              k := 80 |}
           {| tipo := "Rociador ESFR K14"; k := 200 |} 0.5);
    [reflexivity | reflexivity | lia | lra].
Defined.

(** ** detection.ts *)

(** The band index grows with the ceiling height and never leaves the
    four entries of a coverage array. *)
Theorem rango_altura_monotono (h1 h2 : R) :
  h1 <= h2 ->
  (obtenerRangoAltura h1 <= obtenerRangoAltura h2 <= 3)%nat.
Proof.
  intros H. unfold obtenerRangoAltura.
  destruct (Rle_dec h1 6), (Rle_dec h1 8), (Rle_dec h1 10),
           (Rle_dec h2 6), (Rle_dec h2 8), (Rle_dec h2 10);
    try lra; lia.
Qed.

Lemma rango_altura_monotono_testigo :
  (obtenerRangoAltura 3 <= obtenerRangoAltura 9 <= 3)%nat.
Proof. apply (rango_altura_monotono 3 9). lra. Defined.

Lemma rango_menor_que_4 (h : R) : (obtenerRangoAltura h < 4)%nat.
Proof.
  unfold obtenerRangoAltura.
  destruct (Rle_dec h 6), (Rle_dec h 8), (Rle_dec h 10); lia.
Qed.

Lemma calcularParaDetector_devuelve (d : TipoDetector) (h l w : R) :
  List.length (coberturaMaxM2 d) = 4%nat ->
  exists r : ResultadoDetectores, calcularParaDetector d h l w = Some r.
Proof.
  intros Hlen. unfold calcularParaDetector.
  destruct (Rgt_dec h (alturaMaxM d)); [eexists; reflexivity |].
  destruct (nth_error (coberturaMaxM2 d) (obtenerRangoAltura h)) as [c |] eqn:E.
  - destruct (Req_dec_T c 0); eexists; reflexivity.
  - apply nth_error_None in E. pose proof (rango_menor_que_4 h). lia.
Qed.

Lemma tabla_cuatro_bandas (i : nat) (d : TipoDetector) :
  nth_error tiposDetectores i = Some d ->
  List.length (coberturaMaxM2 d) = 4%nat.
Proof.
  intros Hd.
  do 6 (destruct i as [| i]; [injection Hd as <-; reflexivity |]).
  destruct i; discriminate.
Qed.

(** The planner has a result for the six detector types of the table and
    for no other index: an index outside the table is the [TypeError] of
    reading a property of [undefined]. *)
Theorem indice_fuera_de_tabla (i : nat) (h l w : R) :
  calcularEspaciamientoDetectores i h l w = None <-> (6 <= i)%nat.
Proof.
  unfold calcularEspaciamientoDetectores.
  destruct (nth_error tiposDetectores i) as [d |] eqn:E.
  - assert (Hi : (i < 6)%nat).
    { assert (Hn : nth_error tiposDetectores i <> None)
        by (rewrite E; discriminate).
      apply nth_error_Some in Hn. exact Hn. }
    destruct (calcularParaDetector_devuelve d h l w (tabla_cuatro_bandas i d E))
      as [r ->].
    split; [discriminate | lia].
  - apply nth_error_None in E. cbn [List.length tiposDetectores] in E.
    split; [intros _; exact E | reflexivity].
Qed.

(** ** Comparisons of doubles *)

(** A double that is a number and not above the positive double [a] is
    at most any positive double [b] that [a] is at most. *)
Lemma no_mayor_que (a b h : float) (ma mb : positive) (ea eb : Z) :
  Prim2SF a = S754_finite false ma ea ->
  Prim2SF b = S754_finite false mb eb ->
  SFleb (S754_finite false ma ea) (S754_finite false mb eb) = true ->
  PrimFloat.ltb a h = false -> PrimFloat.is_nan h = false ->
  PrimFloat.leb h b = true.
Proof.
  intros Ha Hb Hab Hah Hnan.
  unfold PrimFloat.is_nan in Hnan.
  rewrite ltb_spec, Ha in Hah. rewrite FloatAxioms.eqb_spec in Hnan.
  rewrite leb_spec, Hb.
  destruct (Prim2SF h) as [s | s | | s m e].
  - reflexivity.
  - destruct s; [reflexivity | discriminate].
  - discriminate.
  - destruct s; [reflexivity |].
    unfold SFleb, SFltb, SFcompare in *.
    destruct (Z.compare_spec ea e) as [E1 | E1 | E1];
      destruct (Z.compare_spec e eb) as [E2 | E2 | E2];
      destruct (Z.compare_spec ea eb) as [E3 | E3 | E3];
      try lia; try discriminate; try reflexivity.
    rewrite Pos.compare_cont_spec in *. cbn [Pos.switch_Eq] in *.
    destruct (Pos.compare_spec ma m) as [P1 | P1 | P1];
      destruct (Pos.compare_spec m mb) as [P2 | P2 | P2];
      destruct (Pos.compare_spec ma mb) as [P3 | P3 | P3];
      try lia; try discriminate; try reflexivity.
Qed.

Lemma no_mayor_que_7_5 (h : float) :
  PrimFloat.ltb 7.5 h = false -> PrimFloat.is_nan h = false ->
  PrimFloat.leb h 8 = true.
Proof.
  apply (no_mayor_que 7.5 8 h 8444249301319680 4503599627370496 (-50) (-49));
    reflexivity.
Qed.

Lemma no_mayor_que_6 (h : float) :
  PrimFloat.ltb 6 h = false -> PrimFloat.is_nan h = false ->
  PrimFloat.leb h 6 = true.
Proof.
  apply (no_mayor_que 6 6 h 6755399441055744 6755399441055744 (-50) (-50));
    reflexivity.
Qed.

(** A [NaN] compares false with everything. *)
Lemma nan_no_compara (a h : float) :
  PrimFloat.is_nan h = true ->
  PrimFloat.ltb a h = false /\ PrimFloat.leb h a = false.
Proof.
  unfold PrimFloat.is_nan. rewrite FloatAxioms.eqb_spec, ltb_spec, leb_spec.
  destruct (Prim2SF h) as [s | s | | s m e]; cbn.
  - discriminate.
  - destruct s; discriminate.
  - intros _. unfold SFltb, SFleb, SFcompare.
    destruct (Prim2SF a); split; reflexivity.
  - unfold SFeqb, SFcompare. rewrite Z.compare_refl, Pos.compare_cont_refl.
    destruct s; discriminate.
Qed.

Lemma cobertura_no_cero :
  PrimFloat.eqb 80 0 = false /\ PrimFloat.eqb 60 0 = false /\
  PrimFloat.eqb 40 0 = false /\ PrimFloat.eqb 30 0 = false /\
  PrimFloat.eqb 20 0 = false /\ PrimFloat.eqb 15 0 = false /\
  PrimFloat.eqb 200 0 = false /\ PrimFloat.eqb 0 0 = true.
Proof. repeat split; reflexivity. Qed.

(** With the table as shipped and a ceiling height that is a number
    (finite or infinite), a result is invalid exactly when the height is
    above the detector's rated height, and its message is never the "not
    suitable" one.  A [NaN] height, which is what the page passes for an
    empty field, fails the height check and falls in the last band: the
    three thermal detectors (indices 2, 3 and 4) reject it with the "not
    suitable" message and the other three accept it. *)
Theorem tabla_solo_rechaza_por_altura
    (i : nat) (d : Binary64.TipoDetector) (h l w : float) :
  nth_error Binary64.tiposDetectores i = Some d ->
  exists r : Binary64.ResultadoDetectores,
    Binary64.calcularEspaciamientoDetectores i h l w = Some r /\
    (PrimFloat.is_nan h = false ->
       (Binary64.valido r = false <->
        PrimFloat.ltb (Binary64.alturaMaxM d) h = true) /\
       Binary64.mensaje r <>
         [Binary64.Texto "Este tipo de detector no es adecuado para esta altura"]) /\
    (PrimFloat.is_nan h = true ->
       (Binary64.valido r = false <-> i = 2%nat \/ i = 3%nat \/ i = 4%nat) /\
       (Binary64.valido r = false ->
        Binary64.mensaje r =
          [Binary64.Texto "Este tipo de detector no es adecuado para esta altura"])).
Proof.
  intros Hd.
  destruct cobertura_no_cero as (C80 & C60 & C40 & C30 & C20 & C15 & C200 & C0).
  assert (Hnan : PrimFloat.is_nan h = true ->
                 forall a, PrimFloat.ltb a h = false /\ PrimFloat.leb h a = false).
  { intros N a. now apply nan_no_compara. }
  unfold Binary64.calcularEspaciamientoDetectores. rewrite Hd.
  unfold Binary64.calcularParaDetector, Binary64.obtenerRangoAltura.
  do 6 (destruct i as [| i];
    [ injection Hd as <-;
      cbn [Binary64.alturaMaxM Binary64.coberturaMaxM2] in *;
      match goal with
      | |- context [if PrimFloat.ltb ?a h then _ else _] =>
          destruct (PrimFloat.ltb a h) eqn:Hmax
      end;
      [ eexists; split; [reflexivity |];
        cbn [Binary64.valido Binary64.mensaje];
        split;
        [ intros _; split; [tauto | discriminate]
        | intros N;
          match type of Hmax with
          | PrimFloat.ltb ?a h = true =>
              destruct (Hnan N a) as [N1 _]; rewrite Hmax in N1; discriminate
          end ]
      | destruct (PrimFloat.leb h 6) eqn:L6;
        destruct (PrimFloat.leb h 8) eqn:L8;
        destruct (PrimFloat.leb h 10) eqn:L10;
        cbn [nth_error];
        rewrite ?C80, ?C60, ?C40, ?C30, ?C20, ?C15, ?C200, ?C0;
        eexists; (split; [reflexivity |]);
        cbn [Binary64.valido Binary64.mensaje];
        split; intros N;
        try (rewrite (no_mayor_que_7_5 h Hmax N) in L8; discriminate);
        try (rewrite (no_mayor_que_6 h Hmax N) in L6; discriminate);
        try (destruct (Hnan N 6%float) as [_ N6]; rewrite L6 in N6; discriminate);
        try (destruct (Hnan N 8%float) as [_ N8]; rewrite L8 in N8; discriminate);
        try (destruct (Hnan N 10%float) as [_ N10]; rewrite L10 in N10;
             discriminate);
        (split;
         [ split; intros V; first [discriminate V | reflexivity | lia | tauto]
         | first [discriminate | intros V; first [discriminate V | reflexivity]] ]) ]
    | ]).
  destruct i; discriminate.
Qed.

Lemma tabla_solo_rechaza_por_altura_testigo :
  exists r : Binary64.ResultadoDetectores,
    Binary64.calcularEspaciamientoDetectores 2 7 10 10 = Some r /\
    (PrimFloat.is_nan 7 = false ->
       (Binary64.valido r = false <-> PrimFloat.ltb 7.5 7 = true) /\
       Binary64.mensaje r <>
         [Binary64.Texto "Este tipo de detector no es adecuado para esta altura"]) /\
    (PrimFloat.is_nan 7 = true ->
       (Binary64.valido r = false <-> 2%nat = 2%nat \/ 2%nat = 3%nat \/ 2%nat = 4%nat) /\
       (Binary64.valido r = false ->
        Binary64.mensaje r =
          [Binary64.Texto "Este tipo de detector no es adecuado para esta altura"])).
Proof.
  apply (tabla_solo_rechaza_por_altura 2
           {| Binary64.nombre := "Detector termico (clase A1)";
              Binary64.coberturaMaxM2 := [30; 20; 0; 0]%float;
              Binary64.alturaMaxM := 7.5%float |} 7 10 10).
  reflexivity.
Defined.

(** The page's empty height field, run: [NaN] under the thermal class A1
    detector is rejected as "not suitable", under the optical smoke
    detector it is accepted. *)
Lemma altura_NaN_binary64 :
  option_map (fun r => (Binary64.valido r, Binary64.mensaje r))
    (Binary64.calcularEspaciamientoDetectores 2 PrimFloat.nan 10 10) =
  Some (false,
        [Binary64.Texto "Este tipo de detector no es adecuado para esta altura"]) /\
  option_map (fun r => (Binary64.valido r, Binary64.mensaje r))
    (Binary64.calcularEspaciamientoDetectores 0 PrimFloat.nan 10 10) =
  Some (true, []).
Proof. split; vm_compute; reflexivity. Qed.

(** Whatever the planner returns, the message is empty exactly when the
    result is valid, and an invalid result carries no warnings, no
    detectors and the area of the room. *)
Theorem mensaje_vacio_si_valido (d : TipoDetector) (h l w : R)
    (r : ResultadoDetectores) :
  calcularParaDetector d h l w = Some r ->
  (valido r = true <-> mensaje r = []) /\
  (valido r = false ->
     advertencias r = [] /\ numDetectoresReal r = 0 /\ areaM2 r = l * w).
Proof.
  unfold calcularParaDetector.
  destruct (Rgt_dec h (alturaMaxM d)).
  { intros [= <-]. cbn. unfold mensajeAlturaMaxima.
    repeat split; try discriminate; reflexivity. }
  destruct (nth_error (coberturaMaxM2 d) (obtenerRangoAltura h)) as [c |];
    [| discriminate].
  destruct (Req_dec_T c 0).
  { intros [= <-]. cbn. unfold mensajeNoAdecuado.
    repeat split; try discriminate; reflexivity. }
  intros [= <-]. cbn [valido mensaje].
  repeat split; try discriminate; reflexivity.
Qed.

Lemma mensaje_vacio_si_valido_testigo :
  exists r : ResultadoDetectores,
    calcularParaDetector detectorA1 9 10 10 = Some r /\
    (valido r = true <-> mensaje r = []) /\
    (valido r = false ->
       advertencias r = [] /\ numDetectoresReal r = 0 /\ areaM2 r = 10 * 10).
Proof.
  assert (H : calcularParaDetector detectorA1 9 10 10 =
              Some (rechazo (10 * 10) (mensajeAlturaMaxima detectorA1))).
  { apply salida_altura. cbn [alturaMaxM detectorA1]. lra. }
  eexists. split; [exact H |].
  exact (mensaje_vacio_si_valido detectorA1 9 10 10 _ H).
Defined.


Section AceptadoMas.

  Variables (detector : TipoDetector) (alturaM largoM anchoM c : R).
  Hypothesis Haltura : alturaM <= alturaMaxM detector.
  Hypothesis Hbanda :
    nth_error (coberturaMaxM2 detector) (obtenerRangoAltura alturaM) = Some c.
  Hypothesis Hc : 0 < c.
  Hypothesis Hlargo : 0 < largoM.
  Hypothesis Hancho : 0 < anchoM.


(** The layout of the source's comment, [L = 2 * (d / 2) + (n - 1) * d]:
    on each axis there is an exact spacing [d] whose half taken twice plus
    [n - 1] spacings is the room's dimension, and the returned spacing
    and wall offset are [d] and [d / 2], each rounded once to 2
    decimals. *)
Theorem distribucion_uniforme :
  exists (r : ResultadoDetectores) (dL dW : R),
    calcularParaDetector detector alturaM largoM anchoM = Some r /\
    2 * (dL / 2) + (detectoresLargo r - 1) * dL = largoM /\
    2 * (dW / 2) + (detectoresAncho r - 1) * dW = anchoM /\
    redondeado 2 dL (espaciamientoLargoM r) /\
    redondeado 2 (dL / 2) (distanciaParedLargoM r) /\
    redondeado 2 dW (espaciamientoAnchoM r) /\
    redondeado 2 (dW / 2) (distanciaParedAnchoM r).
Proof.
  pose proof (Math_sqrt_gt0 c Hc) as Hs.
  assert (HnL : 1 <= Math_ceil (largoM / Math_sqrt c)).
  { apply Math_ceil_pos. now apply Rdiv_lt_0_compat. }
  assert (HnW : 1 <= Math_ceil (anchoM / Math_sqrt c)).
  { apply Math_ceil_pos. now apply Rdiv_lt_0_compat. }
  eexists.
  exists (largoM / Math_ceil (largoM / Math_sqrt c)),
         (anchoM / Math_ceil (anchoM / Math_sqrt c)).
  split.
  { apply (salida_aceptada detector alturaM largoM anchoM c);
      [exact Haltura | exact Hbanda | lra]. }
  cbn [detectoresLargo detectoresAncho espaciamientoLargoM espaciamientoAnchoM
       distanciaParedLargoM distanciaParedAnchoM].
  split; [field; lra |]. split; [field; lra |].
  repeat split; apply redondeado_Math_round; (simpl; lra) || reflexivity.
Qed.

(** What is reported beside the grid: the area rounded once to 2
    decimals, and as theoretical minimum the least whole number of
    coverage areas [c] that reaches the area of the room, at least one. *)
Theorem minimo_teorico :
  exists (r : ResultadoDetectores) (n : Z),
    calcularParaDetector detector alturaM largoM anchoM = Some r /\
    redondeado 2 (largoM * anchoM) (areaM2 r) /\
    numDetectoresMinimo r = IZR n /\ (1 <= n)%Z /\
    IZR (n - 1) * c < largoM * anchoM <= IZR n * c.
Proof.
  assert (Ha : 0 < largoM * anchoM) by (now apply Rmult_lt_0_compat).
  assert (Hq : 0 < largoM * anchoM / c) by (now apply Rdiv_lt_0_compat).
  pose proof (Math_ceil_pos _ Hq) as H1.
  pose proof (Math_ceil_bound (largoM * anchoM / c)) as [Hlo Hhi].
  unfold Math_ceil in H1, Hlo, Hhi.
  eexists. exists (Zceil (largoM * anchoM / c)). split.
  { apply (salida_aceptada detector alturaM largoM anchoM c);
      [exact Haltura | exact Hbanda | lra]. }
  cbn [areaM2 numDetectoresMinimo].
  split; [apply redondeado_Math_round; [simpl; lra | reflexivity] |].
  split; [reflexivity |]. split; [now apply le_IZR |].
  rewrite minus_IZR.
  set (n := IZR (Zceil (largoM * anchoM / c))) in *.
  assert (E : largoM * anchoM / c * c = largoM * anchoM) by (field; lra).
  set (a := largoM * anchoM) in *.
  assert (Hlt : (n - 1) * c < a / c * c) by (apply Rmult_lt_compat_r; lra).
  assert (Hle : a / c * c <= n * c) by (apply Rmult_le_compat_r; lra).
  lra.
Qed.

(** A room no longer and no wider than the maximum spacing takes a
    single detector, at its centre. *)
Theorem sala_pequena_un_detector :
  largoM <= Math_sqrt c -> anchoM <= Math_sqrt c ->
  exists r : ResultadoDetectores,
    calcularParaDetector detector alturaM largoM anchoM = Some r /\
    numDetectoresReal r = 1 /\
    detectoresLargo r = 1 /\ detectoresAncho r = 1 /\
    espaciamientoLargoM r = Math_round (largoM * 100) / 100 /\
    espaciamientoAnchoM r = Math_round (anchoM * 100) / 100 /\
    distanciaParedLargoM r = Math_round (largoM / 2 * 100) / 100 /\
    distanciaParedAnchoM r = Math_round (anchoM / 2 * 100) / 100.
Proof.
  intros HL HW.
  pose proof (Math_sqrt_gt0 c Hc) as Hs.
  assert (EL : Math_ceil (largoM / Math_sqrt c) = 1).
  { apply (Math_ceil_eq 1). apply cociente_entre; lra. }
  assert (EW : Math_ceil (anchoM / Math_sqrt c) = 1).
  { apply (Math_ceil_eq 1). apply cociente_entre; lra. }
  eexists. split.
  { apply (salida_aceptada detector alturaM largoM anchoM c);
      [exact Haltura | exact Hbanda | lra]. }
  cbn [numDetectoresReal detectoresLargo detectoresAncho espaciamientoLargoM
       espaciamientoAnchoM distanciaParedLargoM distanciaParedAnchoM].
  rewrite EL, EW.
  replace (largoM / 1) with largoM by field.
  replace (anchoM / 1) with anchoM by field.
  repeat split; try reflexivity. lra.
Qed.

End AceptadoMas.


Lemma distribucion_uniforme_testigo :
  exists (r : ResultadoDetectores) (dL dW : R),
    calcularParaDetector detectorA1 3 10 10 = Some r /\
    2 * (dL / 2) + (detectoresLargo r - 1) * dL = 10 /\
    2 * (dW / 2) + (detectoresAncho r - 1) * dW = 10 /\
    redondeado 2 dL (espaciamientoLargoM r) /\
    redondeado 2 (dL / 2) (distanciaParedLargoM r) /\
    redondeado 2 dW (espaciamientoAnchoM r) /\
    redondeado 2 (dW / 2) (distanciaParedAnchoM r).
Proof.
  apply (distribucion_uniforme detectorA1 3 10 10 30
           altura_3m_A1 cobertura_3m_A1); lra.
Defined.

Lemma minimo_teorico_testigo :
  exists (r : ResultadoDetectores) (n : Z),
    calcularParaDetector detectorA1 3 10 10 = Some r /\
    redondeado 2 (10 * 10) (areaM2 r) /\
    numDetectoresMinimo r = IZR n /\ (1 <= n)%Z /\
    IZR (n - 1) * 30 < 10 * 10 <= IZR n * 30.
Proof.
  apply (minimo_teorico detectorA1 3 10 10 30 altura_3m_A1 cobertura_3m_A1); lra.
Defined.

Lemma sala_pequena_un_detector_testigo :
  exists r : ResultadoDetectores,
    calcularParaDetector detectorA1 3 5 4 = Some r /\
    numDetectoresReal r = 1 /\
    detectoresLargo r = 1 /\ detectoresAncho r = 1 /\
    espaciamientoLargoM r = Math_round (5 * 100) / 100 /\
    espaciamientoAnchoM r = Math_round (4 * 100) / 100 /\
    distanciaParedLargoM r = Math_round (5 / 2 * 100) / 100 /\
    distanciaParedAnchoM r = Math_round (4 / 2 * 100) / 100.
Proof.
  pose proof Math_sqrt_30 as Hs.
  apply (sala_pequena_un_detector detectorA1 3 5 4 30
           altura_3m_A1 cobertura_3m_A1); lra.
Defined.

(** Length and width are interchangeable: swapping them swaps the two
    counts, the two spacings and the two wall offsets and changes nothing
    else among the numbers, the validity and the message. *)
Theorem ejes_intercambiables (d : TipoDetector) (h l w : R) :
  match calcularParaDetector d h l w, calcularParaDetector d h w l with
  | Some r, Some r' =>
      areaM2 r' = areaM2 r /\
      numDetectoresMinimo r' = numDetectoresMinimo r /\
      coberturaMaximaM2 r' = coberturaMaximaM2 r /\
      espaciamientoMaximoM r' = espaciamientoMaximoM r /\
      numDetectoresReal r' = numDetectoresReal r /\
      detectoresLargo r' = detectoresAncho r /\
      detectoresAncho r' = detectoresLargo r /\
      espaciamientoLargoM r' = espaciamientoAnchoM r /\
      espaciamientoAnchoM r' = espaciamientoLargoM r /\
      distanciaParedLargoM r' = distanciaParedAnchoM r /\
      distanciaParedAnchoM r' = distanciaParedLargoM r /\
      valido r' = valido r /\
      mensaje r' = mensaje r
  | None, None => True
  | _, _ => False
  end.
Proof.
  unfold calcularParaDetector.
  destruct (Rgt_dec h (alturaMaxM d)).
  { cbn. rewrite (Rmult_comm w l). repeat split; reflexivity. }
  destruct (nth_error (coberturaMaxM2 d) (obtenerRangoAltura h)) as [c |];
    [| exact I].
  destruct (Req_dec_T c 0).
  { cbn. rewrite (Rmult_comm w l). repeat split; reflexivity. }
  cbn [areaM2 numDetectoresMinimo coberturaMaximaM2 espaciamientoMaximoM
       numDetectoresReal detectoresLargo detectoresAncho espaciamientoLargoM
       espaciamientoAnchoM distanciaParedLargoM distanciaParedAnchoM valido
       mensaje].
  rewrite (Rmult_comm w l).
  repeat split; try reflexivity. apply Rmult_comm.
Qed.

Lemma Math_ceil_le (x y : R) : x <= y -> Math_ceil x <= Math_ceil y.
Proof. intros H. unfold Math_ceil. now apply IZR_le, Zceil_le. Qed.

Lemma cuentas_crecen (l l' w w' c c' : R) :
  0 < l <= l' -> 0 < w <= w' -> 0 < c' <= c ->
  Math_ceil (l / Math_sqrt c) <= Math_ceil (l' / Math_sqrt c') /\
  Math_ceil (w / Math_sqrt c) <= Math_ceil (w' / Math_sqrt c') /\
  Math_ceil (l / Math_sqrt c) * Math_ceil (w / Math_sqrt c) <=
    Math_ceil (l' / Math_sqrt c') * Math_ceil (w' / Math_sqrt c') /\
  Math_ceil (l * w / c) <= Math_ceil (l' * w' / c').
Proof.
  intros Hl Hw Hc.
  assert (Hs' : 0 < Math_sqrt c') by (apply Math_sqrt_gt0; lra).
  assert (Hss : Math_sqrt c' <= Math_sqrt c).
  { unfold Math_sqrt. apply sqrt_le_1_alt. lra. }
  assert (HL : Math_ceil (l / Math_sqrt c) <= Math_ceil (l' / Math_sqrt c')).
  { apply Math_ceil_le, cociente_mono; lra. }
  assert (HW : Math_ceil (w / Math_sqrt c) <= Math_ceil (w' / Math_sqrt c')).
  { apply Math_ceil_le, cociente_mono; lra. }
  assert (H1L : 1 <= Math_ceil (l / Math_sqrt c)).
  { apply Math_ceil_pos, Rdiv_lt_0_compat; lra. }
  assert (H1W : 1 <= Math_ceil (w / Math_sqrt c)).
  { apply Math_ceil_pos, Rdiv_lt_0_compat; lra. }
  repeat split; try assumption.
  - apply Rmult_le_compat; lra.
  - apply Math_ceil_le, cociente_mono; [| lra]. split; [nra |].
    apply Rmult_le_compat; lra.
Qed.

(** A larger room never takes fewer detectors: growing the length or
    the width cannot lower either count, their product, or the
    theoretical minimum. *)
Theorem mas_sala_mas_detectores (d : TipoDetector) (h l l' w w' c : R) :
  h <= alturaMaxM d ->
  nth_error (coberturaMaxM2 d) (obtenerRangoAltura h) = Some c ->
  0 < c -> 0 < l <= l' -> 0 < w <= w' ->
  exists r r' : ResultadoDetectores,
    calcularParaDetector d h l w = Some r /\
    calcularParaDetector d h l' w' = Some r' /\
    detectoresLargo r <= detectoresLargo r' /\
    detectoresAncho r <= detectoresAncho r' /\
    numDetectoresReal r <= numDetectoresReal r' /\
    numDetectoresMinimo r <= numDetectoresMinimo r'.
Proof.
  intros Hh Hb Hc Hl Hw.
  destruct (cuentas_crecen l l' w w' c c Hl Hw) as (HL & HW & HR & HM); [lra |].
  eexists. eexists.
  split; [apply (salida_aceptada d h l w c); [assumption | assumption | lra] |].
  split; [apply (salida_aceptada d h l' w' c); [assumption | assumption | lra] |].
  cbn [detectoresLargo detectoresAncho numDetectoresReal numDetectoresMinimo].
  repeat split; assumption.
Qed.

Lemma mas_sala_mas_detectores_testigo :
  exists r r' : ResultadoDetectores,
    calcularParaDetector detectorA1 3 10 10 = Some r /\
    calcularParaDetector detectorA1 3 20 12 = Some r' /\
    detectoresLargo r <= detectoresLargo r' /\
    detectoresAncho r <= detectoresAncho r' /\
    numDetectoresReal r <= numDetectoresReal r' /\
    numDetectoresMinimo r <= numDetectoresMinimo r'.
Proof.
  apply (mas_sala_mas_detectores detectorA1 3 10 20 10 12 30
           altura_3m_A1 cobertura_3m_A1); lra.
Defined.

Lemma tabla_cobertura_decrece (i : nat) (d : TipoDetector) (h h' : R) :
  nth_error tiposDetectores i = Some d ->
  h <= h' -> h' <= alturaMaxM d ->
  exists c c' : R,
    nth_error (coberturaMaxM2 d) (obtenerRangoAltura h) = Some c /\
    nth_error (coberturaMaxM2 d) (obtenerRangoAltura h') = Some c' /\
    0 < c' <= c.
Proof.
  intros Hd Hh Hmax.
  do 6 (destruct i as [| i];
        [injection Hd as <-; cbn [alturaMaxM coberturaMaxM2] in *;
         unfold obtenerRangoAltura;
         destruct (Rle_dec h 6), (Rle_dec h 8), (Rle_dec h 10),
                  (Rle_dec h' 6), (Rle_dec h' 8), (Rle_dec h' 10);
         try lra; eexists; eexists;
         (split; [reflexivity | split; [reflexivity | lra]]) |]).
  destruct i; discriminate.
Qed.

(** For every detector of the table, a higher ceiling (within the rated
    height) never takes fewer detectors for the same room. *)
Theorem mas_altura_mas_detectores (i : nat) (d : TipoDetector) (h h' l w : R) :
  nth_error tiposDetectores i = Some d ->
  h <= h' -> h' <= alturaMaxM d -> 0 < l -> 0 < w ->
  exists r r' : ResultadoDetectores,
    calcularEspaciamientoDetectores i h l w = Some r /\
    calcularEspaciamientoDetectores i h' l w = Some r' /\
    valido r = true /\ valido r' = true /\
    numDetectoresReal r <= numDetectoresReal r' /\
    numDetectoresMinimo r <= numDetectoresMinimo r'.
Proof.
  intros Hd Hh Hmax Hl Hw.
  destruct (tabla_cobertura_decrece i d h h' Hd Hh Hmax) as (c & c' & Hc & Hc' & Hcc).
  destruct (cuentas_crecen l l w w c c') as (_ & _ & HR & HM); try lra.
  rewrite !(calcularEspaciamientoDetectores_tabla i d _ _ _ Hd).
  eexists. eexists.
  split; [apply (salida_aceptada d h l w c); [lra | assumption | lra] |].
  split; [apply (salida_aceptada d h' l w c'); [lra | assumption | lra] |].
  cbn [valido numDetectoresReal numDetectoresMinimo].
  repeat split; assumption.
Qed.

Lemma mas_altura_mas_detectores_testigo :
  exists r r' : ResultadoDetectores,
    calcularEspaciamientoDetectores 0 3 30 20 = Some r /\
    calcularEspaciamientoDetectores 0 11 30 20 = Some r' /\
    valido r = true /\ valido r' = true /\
    numDetectoresReal r <= numDetectoresReal r' /\
    numDetectoresMinimo r <= numDetectoresMinimo r'.
Proof.
  eapply (mas_altura_mas_detectores 0 _ 3 11 30 20);
    [reflexivity | lra | cbn [alturaMaxM]; lra | lra | lra].
Defined.
